(** * AIND-Recognizer: model selectors and the recognition loop

    A shallow embedding of [my_model_selectors.py] and [my_recognizer.py].

    Conventions of the embedding.
    - Python floats (log-likelihoods, criteria) are exact rationals [Q];
      negative infinity, which the recognizer writes itself, is a separate
      constructor of [pyfloat].  Rounding is monotone, so [<=] between
      computed values and [max] over stored values are those of the
      program; a strict inequality between two computed values is the
      program's only where the values are apart by more than the rounding.
    - Python ints are [Z]; [len] results are [nat].
    - A [dict] is an association list in insertion order: Python iterates
      dicts in that order, and [max] over a dict depends on it.
    - A method of a selector is a computation in the monad [Py]: it reads and
      writes the selector object [self] and either returns a value or raises.
    - hmmlearn and numpy are outside the repository: what [fit], [score] and
      [np.log] answer is a parameter of the model (record [hmmlearn]). *)

From Stdlib Require Import String Bool Arith ZArith QArith Lia List.
Import ListNotations.

Local Open Scope Z_scope.

(** ** Values *)

Definition word := string.

(** One observation row (the features of one frame). *)
Definition frame := list Q.

(** The exceptions the two files can meet. *)
Inductive exn : Type :=
| AttributeError   (* [.score] on [None] or on an [int] *)
| ValueError       (* [max] of an empty dict, [KFold.split] with too few items *)
| KeyError         (* dict lookup of an absent key *)
| IndexError       (* list index out of range *)
| FitError         (* [GaussianHMM.fit] failed *)
| ScoreError.      (* [GaussianHMM.score] failed *)

Inductive outcome (A : Type) : Type :=
| Return (a : A)
| Raise (e : exn).

Arguments Return {A} a.
Arguments Raise {A} e.

(** A fitted model: hmmlearn's fit is deterministic for a given seed, so a
    fitted [GaussianHMM] is identified by its constructor arguments and the
    data it was fit on.  [n_components] is the constructor argument, as in
    [GaussianHMM(n_components=num_states, ...)]. *)
Record GaussianHMM : Type := mkHMM {
  n_components : Z;
  hmm_random_state : Z;
  fit_X : list frame;
  fit_lengths : list nat
}.

(** What a Python variable of the two files can hold where a model is
    expected: [None], an [int], or a model. *)
Inductive pyobj : Type :=
| PyNone
| PyInt (z : Z)
| PyModel (m : GaussianHMM).

(** A float as the recognizer stores it. *)
Inductive pyfloat : Type :=
| NegInf
| Finite (q : Q).

(** The external numeric libraries. *)
Record hmmlearn : Type := mkLib {
  (* does [GaussianHMM(n, seed).fit(X, lengths)] return (true) or raise *)
  fit_converges : Z -> Z -> list frame -> list nat -> bool;
  (* [model.score(X, lengths)]: the log-likelihood, or [None] when it raises *)
  hmm_score : GaussianHMM -> list frame -> list nat -> option Q;
  (* [np.log] on a [len] *)
  np_log : nat -> Q
}.

(** ** Dicts as association lists in insertion order *)

Fixpoint dict_get {V : Type} (d : list (word * V)) (k : word) : outcome V :=
  match d with
  | [] => Raise KeyError
  | (k', v) :: rest => if String.eqb k' k then Return v else dict_get rest k
  end.

(** [d[k] = v]: an existing key keeps its position, a new key goes last. *)
Fixpoint dict_set {V : Type} (d : list (word * V)) (k : word) (v : V)
  : list (word * V) :=
  match d with
  | [] => [(k, v)]
  | (k', v') :: rest =>
      if String.eqb k' k then (k', v) :: rest else (k', v') :: dict_set rest k v
  end.

Definition dict_keys {K V : Type} (d : list (K * V)) : list K := map fst d.

(** A Python dict has no repeated key. *)
Definition dict_wf {K V : Type} (d : list (K * V)) : Prop := NoDup (dict_keys d).

(** ** [max(d, key=lambda i: d[i])]

    Python's [max] keeps the first item and replaces it only by a strictly
    greater one; on an empty iterable it raises [ValueError]. *)

Fixpoint max_from {K V : Type} (gt : V -> V -> bool) (best : K * V)
  (l : list (K * V)) : K * V :=
  match l with
  | [] => best
  | x :: rest =>
      if gt (snd x) (snd best) then max_from gt x rest else max_from gt best rest
  end.

Definition py_max {K V : Type} (gt : V -> V -> bool) (d : list (K * V))
  : outcome K :=
  match d with
  | [] => Raise ValueError
  | x :: rest => Return (fst (max_from gt x rest))
  end.

(** [a > b] on floats. *)
Definition Qgtb (a b : Q) : bool := negb (Qle_bool a b).

Definition pyfloat_gtb (a b : pyfloat) : bool :=
  match a, b with
  | NegInf, _ => false
  | Finite _, NegInf => true
  | Finite x, Finite y => Qgtb x y
  end.

Definition pyfloat_le (a b : pyfloat) : Prop :=
  match a, b with
  | NegInf, _ => True
  | Finite _, NegInf => False
  | Finite x, Finite y => (x <= y)%Q
  end.

Definition pyfloat_lt (a b : pyfloat) : Prop :=
  match a, b with
  | _, NegInf => False
  | NegInf, Finite _ => True
  | Finite x, Finite y => (x < y)%Q
  end.

(** ** The selector object and the monad of its methods *)

Record ModelSelector : Type := mkSelector {
  words : list (word * list (list frame));
  hwords : list (word * (list frame * list nat));
  sequences : list (list frame);
  X : list frame;
  lengths : list nat;
  this_word : word;
  n_constant : Z;
  min_n_components : Z;
  max_n_components : Z;
  random_state : Z;
  verbose : bool
}.

(** A method: from the object before to the object after and the result. *)
Definition Py (A : Type) : Type := ModelSelector -> ModelSelector * outcome A.

Definition ret {A : Type} (a : A) : Py A := fun self => (self, Return a).

Definition bind {A B : Type} (c : Py A) (k : A -> Py B) : Py B :=
  fun self =>
    match c self with
    | (self', Return a) => k a self'
    | (self', Raise e) => (self', Raise e)
    end.

(** [try: body  except: handler].  The handler starts from the object as the
    body left it when it raised. *)
Definition try_except {A : Type} (body handler : Py A) : Py A :=
  fun self =>
    match body self with
    | (self', Return a) => (self', Return a)
    | (self', Raise _) => handler self'
    end.

Definition get_self : Py ModelSelector := fun self => (self, Return self).

Definition lift {A : Type} (o : outcome A) : Py A := fun self => (self, o).

(** The object after [self.X, self.lengths = xl]. *)
Definition with_X_lengths (self : ModelSelector)
  (xl : list frame * list nat) : ModelSelector :=
  mkSelector (words self) (hwords self) (sequences self)
             (fst xl) (snd xl)
             (this_word self) (n_constant self)
             (min_n_components self) (max_n_components self)
             (random_state self) (verbose self).

(** [self.X, self.lengths = ...] *)
Definition set_X_lengths (xl : list frame * list nat) : Py unit :=
  fun self => (with_X_lengths self xl, Return tt).

Declare Scope py_scope.
Delimit Scope py_scope with py.
Notation "x <- c ;; k" := (bind c (fun x => k))
  (at level 61, c at next level, right associativity) : py_scope.
Notation "' p <- c ;; k" := (bind c (fun x => let p := x in k))
  (at level 61, p pattern, c at next level, right associativity) : py_scope.
Notation "c ;;; k" := (bind c (fun _ => k))
  (at level 61, right associativity) : py_scope.

(** [ModelSelector.__init__]: the word's entries are looked up in the two
    corpora; an absent word raises [KeyError]. *)
Definition ModelSelector_init
  (all_word_sequences : list (word * list (list frame)))
  (all_word_Xlengths : list (word * (list frame * list nat)))
  (w : word) (n_const min_n max_n seed : Z) (verb : bool)
  : outcome ModelSelector :=
  match dict_get all_word_sequences w with
  | Raise e => Raise e
  | Return seqs =>
      match dict_get all_word_Xlengths w with
      | Raise e => Raise e
      | Return (x, ls) =>
          Return (mkSelector all_word_sequences all_word_Xlengths seqs x ls w
                             n_const min_n max_n seed verb)
      end
  end.

Section Selectors.

Variable L : hmmlearn.

Local Open Scope py_scope.

(** [GaussianHMM(n_components=n, ..., random_state=seed).fit(X, lengths)] *)
Definition GaussianHMM_fit (n seed : Z) (x : list frame) (ls : list nat)
  : outcome GaussianHMM :=
  if fit_converges L n seed x ls then Return (mkHMM n seed x ls)
  else Raise FitError.

(** [obj.score(X, lengths)]: only a model has the method. *)
Definition obj_score (obj : pyobj) (x : list frame) (ls : list nat)
  : outcome Q :=
  match obj with
  | PyModel m =>
      match hmm_score L m x ls with
      | Some s => Return s
      | None => Raise ScoreError
      end
  | PyNone | PyInt _ => Raise AttributeError
  end.

(** [ModelSelector.base_model] *)
Definition base_model (num_states : Z) : Py pyobj :=
  try_except
    (self <- get_self ;;
     hmm_model <- lift (GaussianHMM_fit num_states (random_state self)
                                        (X self) (lengths self)) ;;
     ret (PyModel hmm_model))
    (ret PyNone).

(** [SelectorConstant.select] *)
Definition SelectorConstant_select : Py pyobj :=
  self <- get_self ;;
  let best_num_components := n_constant self in
  base_model best_num_components.

(** [SelectorBIC.scoreBIC] *)
Definition scoreBIC (logLike : Q) (number_of_parameters : Z)
  (number_of_data_points : nat) : Q :=
  ((-2 # 1) * logLike
   + inject_Z number_of_parameters * np_log L number_of_data_points)%Q.

(** The [while] loop of [SelectorBIC.select]; [fuel] bounds the number of
    iterations.  [model_list[hmm_model] = bic] adds an entry at the end:
    every fitted model is a key the dict does not have yet. *)
Fixpoint SelectorBIC_while (fuel : nat) (n : Z) (model_list : list (pyobj * Q))
  : Py (list (pyobj * Q)) :=
  match fuel with
  | O => ret model_list
  | S fuel' =>
      self <- get_self ;;
      if (min_n_components self <=? n) && (n <=? max_n_components self) then
        hmm_model <- base_model n ;;
        model_list' <-
          try_except
            (self <- get_self ;;
             test_score <- lift (obj_score hmm_model (X self) (lengths self)) ;;
             let bic := scoreBIC test_score n (List.length (X self)) in
             ret (model_list ++ [(hmm_model, bic)]))
            (ret model_list) ;;
        SelectorBIC_while fuel' (n + 1) model_list'
      else ret model_list
  end.

(** The candidates [min_n_components .. max_n_components] are at most this
    many. *)
Definition range_size (self : ModelSelector) : nat :=
  Z.to_nat (max_n_components self + 1 - min_n_components self).

(** [SelectorBIC.select] *)
Definition SelectorBIC_select : Py pyobj :=
  self <- get_self ;;
  model_list <- SelectorBIC_while (range_size self) (min_n_components self) [] ;;
  if (List.length model_list =? 0)%nat then
    self <- get_self ;;
    base_model (n_constant self)
  else
    lift (py_max Qgtb model_list).

(** The [for word in self.words] loop of [calculate_avgscore_otherwords],
    over the keys still to visit. *)
Fixpoint avgscore_for (ws : list word) (except_this_word : word)
  (hmm_model : pyobj) (average_score : Q) (num_words : Z) : Py (Q * Z) :=
  match ws with
  | [] => ret (average_score, num_words)
  | w :: rest =>
      if String.eqb w except_this_word then
        avgscore_for rest except_this_word hmm_model average_score num_words
      else
        self <- get_self ;;
        ' (this_X, this_lengths) <- lift (dict_get (hwords self) w) ;;
        ' (average_score', num_words') <-
          try_except
            (score <- lift (obj_score hmm_model this_X this_lengths) ;;
             ret ((average_score + score)%Q, num_words))
            (ret (average_score, num_words - 1)) ;;
        avgscore_for rest except_this_word hmm_model average_score' num_words'
  end.

(** [SelectorDIC.calculate_avgscore_otherwords] *)
Definition calculate_avgscore_otherwords (except_this_word : word)
  (hmm_model : pyobj) : Py Q :=
  self <- get_self ;;
  let average_score := 0%Q in
  let num_words := Z.of_nat (List.length (words self)) in
  let num_words := num_words - 1 in
  ' (average_score, num_words) <-
    avgscore_for (dict_keys (words self)) except_this_word hmm_model
                 average_score num_words ;;
  if 0 <? num_words then ret (average_score / inject_Z num_words)%Q
  else ret 0%Q.

(** The [while] loop of [SelectorDIC.select].  The second argument of
    [calculate_avgscore_otherwords] is [n_components], as the source has it. *)
Fixpoint SelectorDIC_while (fuel : nat) (n : Z) (model_list : list (pyobj * Q))
  : Py (list (pyobj * Q)) :=
  match fuel with
  | O => ret model_list
  | S fuel' =>
      self <- get_self ;;
      if (min_n_components self <=? n) && (n <=? max_n_components self) then
        hmm_model <- base_model n ;;
        model_list' <-
          try_except
            (self <- get_self ;;
             this_word_score <-
               lift (obj_score hmm_model (X self) (lengths self)) ;;
             otherwords_avgscore <-
               calculate_avgscore_otherwords (this_word self) (PyInt n) ;;
             let diff := (this_word_score - otherwords_avgscore)%Q in
             ret (model_list ++ [(hmm_model, diff)]))
            (ret model_list) ;;
        SelectorDIC_while fuel' (n + 1) model_list'
      else ret model_list
  end.

(** [SelectorDIC.select] *)
Definition SelectorDIC_select : Py pyobj :=
  self <- get_self ;;
  model_list <- SelectorDIC_while (range_size self) (min_n_components self) [] ;;
  if (List.length model_list =? 0)%nat then
    self <- get_self ;;
    base_model (n_constant self)
  else
    lift (py_max Qgtb model_list).

End Selectors.

(** ** Folds

    [sklearn.model_selection.KFold(n_splits).split(items)] without shuffling:
    the test folds are consecutive blocks, the first [n mod k] of them one
    longer; the training indices are the others, in order.  Fewer items than
    folds is a [ValueError]. *)

Definition fold_sizes (n_splits n_samples : nat) : list nat :=
  map (fun i => (n_samples / n_splits
                 + (if i <? n_samples mod n_splits then 1 else 0))%nat)
      (seq 0 n_splits).

Fixpoint folds_from (n_samples current : nat) (sizes : list nat)
  : list (list nat * list nat) :=
  match sizes with
  | [] => []
  | fold_size :: rest =>
      let stop := (current + fold_size)%nat in
      (seq 0 current ++ seq stop (n_samples - stop), seq current fold_size)
        :: folds_from n_samples stop rest
  end.

Definition KFold_split (n_splits n_samples : nat)
  : outcome (list (list nat * list nat)) :=
  if (n_samples <? n_splits)%nat then Raise ValueError
  else Return (folds_from n_samples 0 (fold_sizes n_splits n_samples)).

(** [[sequences[idx] for idx in split_index_list]] *)
Fixpoint index_sequences (split_index_list : list nat)
  (seqs : list (list frame)) : outcome (list (list frame)) :=
  match split_index_list with
  | [] => Return []
  | idx :: rest =>
      match nth_error seqs idx with
      | None => Raise IndexError
      | Some s =>
          match index_sequences rest seqs with
          | Return fold => Return (s :: fold)
          | Raise e => Raise e
          end
      end
  end.

(** Modelled from the spec: [asl_utils.combine_sequences] is imported by
    [my_model_selectors.py] and is not among the sources.  Following the
    data model (section 3), the concatenated form of a list of sequences is
    the observation matrix of all their frames with the list of their
    lengths; [combine_sequences] gives it for the sequences at the given
    indices. *)
Definition combine_sequences (split_index_list : list nat)
  (seqs : list (list frame)) : outcome (list frame * list nat) :=
  match index_sequences split_index_list seqs with
  | Return fold => Return (concat fold, map (@List.length frame) fold)
  | Raise e => Raise e
  end.

Section CrossValidation.

Variable L : hmmlearn.

Local Open Scope py_scope.

(** The [for cv_train_idx, cv_test_idx in split_method.split(...)] loop,
    over the folds still to visit. *)
Fixpoint SelectorCV_for (folds : list (list nat * list nat)) (n : Z)
  (average_test_score : Q) (hmm_model : pyobj) : Py (Q * pyobj) :=
  match folds with
  | [] => ret (average_test_score, hmm_model)
  | (cv_train_idx, cv_test_idx) :: rest =>
      self <- get_self ;;
      xl <- lift (combine_sequences cv_train_idx (sequences self)) ;;
      set_X_lengths xl ;;;
      hmm_model <- base_model L n ;;
      self <- get_self ;;
      ' (test_X, test_lengths) <-
        lift (combine_sequences cv_test_idx (sequences self)) ;;
      test_score <- lift (obj_score L hmm_model test_X test_lengths) ;;
      SelectorCV_for rest n (average_test_score + test_score)%Q hmm_model
  end.

(** The [while] loop of [SelectorCV.select].  Each recorded key is a model
    with a state count of its own, so [model_list[hmm_model] = ...] always
    adds an entry at the end. *)
Fixpoint SelectorCV_while (N_SPLITS fuel : nat) (n : Z)
  (model_list : list (pyobj * Q)) : Py (list (pyobj * Q)) :=
  match fuel with
  | O => ret model_list
  | S fuel' =>
      self <- get_self ;;
      if (min_n_components self <=? n) && (n <=? max_n_components self) then
        let average_test_score := 0%Q in
        let hmm_model := PyNone in
        folds <- lift (KFold_split N_SPLITS (List.length (sequences self))) ;;
        ' (average_test_score, hmm_model) <-
          SelectorCV_for folds n average_test_score hmm_model ;;
        let average_test_score :=
          (average_test_score / inject_Z (Z.of_nat N_SPLITS))%Q in
        SelectorCV_while N_SPLITS fuel' (n + 1)
                         (model_list ++ [(hmm_model, average_test_score)])
      else ret model_list
  end.

(** [SelectorCV.select].  The [try] block either falls through with the
    recorded list ([inl]) or its handler returns from the method ([inr]). *)
Definition SelectorCV_select : Py pyobj :=
  let N_SPLITS := 3%nat in
  self <- get_self ;;
  r <- try_except
         (model_list <- SelectorCV_while N_SPLITS (range_size self)
                                         (min_n_components self) [] ;;
          ret (inl model_list))
         (self <- get_self ;;
          hmm_model <- base_model L (n_constant self) ;;
          ret (inr hmm_model)) ;;
  match r with
  | inr hmm_model => ret hmm_model
  | inl model_list => lift (py_max Qgtb model_list)
  end.

(** The four strategies behind [ModelSelector.select]. *)
Inductive selector_kind : Type := Constant | BIC | DIC | CrossValidated.

Definition select (k : selector_kind) : Py pyobj :=
  match k with
  | Constant => SelectorConstant_select L
  | BIC => SelectorBIC_select L
  | DIC => SelectorDIC_select L
  | CrossValidated => SelectorCV_select
  end.

End CrossValidation.

(** ** The recognizer *)

(** Modelled from the spec: [asl_data.SinglesData] is not among the sources.
    Following section 4.6 the test set is an ordered collection of
    (observations, sequence lengths) items; [get_all_Xlengths] gives them
    all, keyed by position, and [get_item_Xlengths] the one at a position. *)
Definition SinglesData := list (list frame * list nat).

Definition get_all_Xlengths (test_set : SinglesData)
  : list (nat * (list frame * list nat)) :=
  combine (seq 0 (List.length test_set)) test_set.

Definition get_item_Xlengths (test_set : SinglesData) (word_id : nat)
  : outcome (list frame * list nat) :=
  match nth_error test_set word_id with
  | Some item => Return item
  | None => Raise KeyError
  end.

Section Recognizer.

Variable L : hmmlearn.

(** The [for model_word, model in models.items()] loop, over the items still
    to visit. *)
Fixpoint recognize_scores (items : list (word * pyobj))
  (current_X : list frame) (current_lengths : list nat)
  (test_word_probability_dict : list (word * pyfloat))
  : list (word * pyfloat) :=
  match items with
  | [] => test_word_probability_dict
  | (model_word, model) :: rest =>
      recognize_scores rest current_X current_lengths
        (match obj_score L model current_X current_lengths with
         | Return score =>
             dict_set test_word_probability_dict model_word (Finite score)
         | Raise _ =>
             dict_set test_word_probability_dict model_word NegInf
         end)
  end.

(** The [for word_id in range(0, len(...))] loop, over the ids still to
    visit. *)
Fixpoint recognize_for (word_ids : list nat) (models : list (word * pyobj))
  (test_set : SinglesData)
  (probabilities : list (list (word * pyfloat))) (guesses : list word)
  : outcome (list (list (word * pyfloat)) * list word) :=
  match word_ids with
  | [] => Return (probabilities, guesses)
  | word_id :: rest =>
      match get_item_Xlengths test_set word_id with
      | Raise e => Raise e
      | Return (current_X, current_lengths) =>
          let test_word_probability_dict :=
            recognize_scores models current_X current_lengths [] in
          let probabilities := probabilities ++ [test_word_probability_dict] in
          match py_max pyfloat_gtb test_word_probability_dict with
          | Raise e => Raise e
          | Return guess =>
              recognize_for rest models test_set probabilities
                            (guesses ++ [guess])
          end
      end
  end.

(** [recognize] *)
Definition recognize (models : list (word * pyobj)) (test_set : SinglesData)
  : outcome (list (list (word * pyfloat)) * list word) :=
  let probabilities := [] in
  let guesses := [] in
  recognize_for (seq 0 (List.length (get_all_Xlengths test_set)))
                models test_set probabilities guesses.

End Recognizer.

(** ** A small corpus and a few answers of the numeric library

    Two words; "UP" has three training sequences (five frames), "DOWN" has
    two (three frames).  Frames have one feature. *)

Local Open Scope string_scope.

Definition fr (z : Z) : frame := [inject_Z z].

Definition up_sequences : list (list frame) :=
  [[fr 1; fr 2]; [fr 3; fr 4]; [fr 5]].

Definition down_sequences : list (list frame) := [[fr 10; fr 11]; [fr 12]].

(** The concatenated form of a list of sequences. *)
Definition concat_form (seqs : list (list frame)) : list frame * list nat :=
  (concat seqs, map (@List.length frame) seqs).

Definition corpus_sequences : list (word * list (list frame)) :=
  [("UP", up_sequences); ("DOWN", down_sequences)].

Definition corpus_Xlengths : list (word * (list frame * list nat)) :=
  [("UP", concat_form up_sequences); ("DOWN", concat_form down_sequences)].

(** The selector of a word of the corpus, as [__init__] builds it. *)
Definition selector_of (w : word) (seqs : list (list frame))
  (n_const min_n max_n : Z) : ModelSelector :=
  mkSelector corpus_sequences corpus_Xlengths seqs
             (fst (concat_form seqs)) (snd (concat_form seqs))
             w n_const min_n max_n 14 false.

(** Natural logarithms to six decimals. *)
Definition ln_approx (n : nat) : Q :=
  match n with
  | 2%nat => 693147 # 1000000
  | 3%nat => 1098612 # 1000000
  | 4%nat => 1386294 # 1000000
  | 5%nat => 1609438 # 1000000
  | _ => 0
  end.

(** A library whose answers depend on the state count and on the number of
    frames: [fits n frames] for fitting, [score n fit_frames frames] for
    scoring a model of [n] states, fit on [fit_frames] frames, on [frames]
    frames. *)
Definition table_lib (fits : Z -> nat -> bool)
  (score : Z -> nat -> nat -> option Q) : hmmlearn :=
  mkLib (fun n _ x _ => fits n (List.length x))
        (fun m x _ =>
           score (n_components m) (List.length (fit_X m)) (List.length x))
        ln_approx.

(** Every fit converges; two states score -10 and three states -9. *)
Definition lib_bic : hmmlearn :=
  table_lib (fun _ _ => true)
            (fun n _ _ =>
               match n with
               | 2 => Some (-10 # 1)
               | 3 => Some (-9 # 1)
               | _ => None
               end).

(** Every fit converges; a model scores -5 on the five frames of "UP" and
    -20 on the three frames of "DOWN". *)
Definition lib_dic : hmmlearn :=
  table_lib (fun _ _ => true)
            (fun _ _ frames =>
               match frames with
               | 5%nat => Some (-5 # 1)
               | 3%nat => Some (-20 # 1)
               | _ => None
               end).

(** No fit converges. *)
Definition lib_nofit : hmmlearn :=
  table_lib (fun _ _ => false) (fun _ _ _ => None).

(** Every fit converges and every score is the state count times the number
    of frames scored. *)
Definition lib_ok : hmmlearn :=
  table_lib (fun _ _ => true)
            (fun n _ frames => Some (inject_Z n * inject_Z (Z.of_nat frames))%Q).

(** Fits converge for every state count but three; every score is -1. *)
Definition lib_no3 : hmmlearn :=
  table_lib (fun n _ => negb (n =? 3)%Z) (fun _ _ _ => Some (-1 # 1)).

Definition up_model (n : Z) : GaussianHMM :=
  mkHMM n 14 (fst (concat_form up_sequences)) (snd (concat_form up_sequences)).

Local Close Scope string_scope.

(** ** The specification's notions, as definitions *)

Section Specification.

Variable L : hmmlearn.

(** What the recognizer records for one model on one test item: the model's
    log-likelihood of the item, or negative infinity when scoring fails. *)
Definition recorded_score (model : pyobj) (item : list frame * list nat)
  : pyfloat :=
  match obj_score L model (fst item) (snd item) with
  | Return s => Finite s
  | Raise _ => NegInf
  end.

(** The score map of a test item: one entry per word of the mapping, in the
    mapping's order. *)
Definition score_map (models : list (word * pyobj))
  (item : list frame * list nat) : list (word * pyfloat) :=
  map (fun wm => (fst wm, recorded_score (snd wm) item)) models.

(** The guess of a test item: what [max] gives on its score map. *)
Definition guess_of (models : list (word * pyobj))
  (item : list frame * list nat) (g : word) : Prop :=
  py_max pyfloat_gtb (score_map models item) = Return g.

End Specification.

(** [v] is a greatest value of [d] and [k] is the first key that has it. *)
Definition first_max {K V : Type} (le lt : V -> V -> Prop)
  (d : list (K * V)) (k : K) (v : V) : Prop :=
  (exists d1 d2, d = d1 ++ (k, v) :: d2 /\ forall e, In e d1 -> lt (snd e) v)
  /\ forall e, In e d -> le (snd e) v.


(** A mapping of two words (the second has no model) and test sets. *)
Definition two_models : list (word * pyobj) :=
  [("UP"%string, PyModel (up_model 3)); ("DOWN"%string, PyNone)].

Definition one_item : SinglesData := [concat_form up_sequences].

Definition two_items : SinglesData :=
  [concat_form up_sequences; concat_form down_sequences].

(** A state count of the candidate range. *)
Definition in_range (self : ModelSelector) (n : Z) : Prop :=
  min_n_components self <= n <= max_n_components self.

(** A model whose state count is a candidate. *)
Definition candidate_model (self : ModelSelector) (o : pyobj) : Prop :=
  exists m, o = PyModel m /\ in_range self (n_components m).

(** What [base_model] answers on given data. *)
Definition fit_result (L : hmmlearn) (n seed : Z) (x : list frame)
  (ls : list nat) : pyobj :=
  if fit_converges L n seed x ls then PyModel (mkHMM n seed x ls) else PyNone.

(** A method that leaves the selector object as it found it. *)
Definition stateless {A : Type} (c : Py A) : Prop :=
  forall self, fst (c self) = self.

(** The concatenated form describes the same frames as the sequence list. *)
Definition consistent (self : ModelSelector) : Prop :=
  (X self, lengths self) = concat_form (sequences self).

(** Everything of the selector but its concatenated form. *)
Definition same_setup (s s' : ModelSelector) : Prop :=
  words s' = words s /\ hwords s' = hwords s /\ sequences s' = sequences s
  /\ this_word s' = this_word s /\ n_constant s' = n_constant s
  /\ min_n_components s' = min_n_components s
  /\ max_n_components s' = max_n_components s
  /\ random_state s' = random_state s /\ verbose s' = verbose s.

(** The end of the BIC and DIC selectors: the fallback fit when nothing was
    recorded, otherwise [max] over the recorded scores. *)
Definition fallback_or_max (L : hmmlearn) (self : ModelSelector)
  (model_list : list (pyobj * Q)) : outcome pyobj :=
  match model_list with
  | [] => Return (fit_result L (n_constant self) (random_state self)
                             (X self) (lengths self))
  | _ :: _ => py_max Qgtb model_list
  end.

(** Where the concatenated form of [s'] comes from: it is that of [s], or it
    is the concatenated form of the training partition of one of the folds
    of the sequence list. *)
Definition X_from_fold (folds : list (list nat * list nat))
  (s s' : ModelSelector) : Prop :=
  (X s' = X s /\ lengths s' = lengths s)
  \/ exists train test,
       In (train, test) folds
       /\ combine_sequences train (sequences s) = Return (X s', lengths s').

Definition X_from_kfold (s s' : ModelSelector) : Prop :=
  (X s' = X s /\ lengths s' = lengths s)
  \/ exists folds train test,
       KFold_split 3 (List.length (sequences s)) = Return folds
       /\ In (train, test) folds
       /\ combine_sequences train (sequences s) = Return (X s', lengths s').

(** Selectors of the two words of the corpus. *)
Definition up_selector (n_const min_n max_n : Z) : ModelSelector :=
  selector_of "UP"%string up_sequences n_const min_n max_n.

Definition down_selector (n_const min_n max_n : Z) : ModelSelector :=
  selector_of "DOWN"%string down_sequences n_const min_n max_n.

(** The model [base_model] gives for [n] states when the fit converges. *)
Definition own_model (self : ModelSelector) (n : Z) : GaussianHMM :=
  mkHMM n (random_state self) (X self) (lengths self).

(** An entry that [SelectorBIC.select] records: a candidate's model with the
    BIC of its score on the word's own data. *)
Definition bic_recorded (L : hmmlearn) (self : ModelSelector)
  (e : pyobj * Q) : Prop :=
  exists n s,
    in_range self n
    /\ fst e = PyModel (own_model self n)
    /\ hmm_score L (own_model self n) (X self) (lengths self) = Some s
    /\ snd e = scoreBIC L s n (List.length (X self)).

(** An entry that [SelectorDIC.select] records: a candidate's model with its
    score on the word's own data minus what
    [calculate_avgscore_otherwords] answered for the state count. *)
Definition dic_recorded (L : hmmlearn) (self : ModelSelector)
  (e : pyobj * Q) : Prop :=
  exists n s avg,
    in_range self n
    /\ fst e = PyModel (own_model self n)
    /\ hmm_score L (own_model self n) (X self) (lengths self) = Some s
    /\ snd (calculate_avgscore_otherwords L (this_word self) (PyInt n) self)
       = Return avg
    /\ snd e = (s - avg)%Q.

(** *** Cross-validation, in the specification's words *)

(** The folds of the word's sequence list. *)
Definition cv_folds (self : ModelSelector) : list (list nat * list nat) :=
  match KFold_split 3 (List.length (sequences self)) with
  | Return folds => folds
  | Raise _ => []
  end.

(** The model fit for [n] states using only the sequences of the fold's
    training partition, if the fit succeeds. *)
Definition fold_fit (L : hmmlearn) (self : ModelSelector) (n : Z)
  (fold : list nat * list nat) : option GaussianHMM :=
  match combine_sequences (fst fold) (sequences self) with
  | Return xl =>
      if fit_converges L n (random_state self) (fst xl) (snd xl)
      then Some (mkHMM n (random_state self) (fst xl) (snd xl))
      else None
  | Raise _ => None
  end.

(** The log-likelihood of the fold's held-out partition under that model, if
    fit and score succeed. *)
Definition fold_score (L : hmmlearn) (self : ModelSelector) (n : Z)
  (fold : list nat * list nat) : option Q :=
  match fold_fit L self n fold,
        combine_sequences (snd fold) (sequences self) with
  | Some m, Return test_Xl => hmm_score L m (fst test_Xl) (snd test_Xl)
  | _, _ => None
  end.

(** The entry of the state count [n] for the folds [f1], [f2], [f3]: the
    model fit on the training partition of the final fold, with the sum of
    the three held-out log-likelihoods divided by three. *)
Definition cv_recorded (L : hmmlearn) (self : ModelSelector)
  (f1 f2 f3 : list nat * list nat) (n : Z) (e : pyobj * Q) : Prop :=
  exists m s1 s2 s3,
    fst e = PyModel m
    /\ fold_fit L self n f3 = Some m
    /\ fold_score L self n f1 = Some s1
    /\ fold_score L self n f2 = Some s2
    /\ fold_score L self n f3 = Some s3
    /\ (snd e == (s1 + s2 + s3) / 3)%Q.

(** The candidates that reach the end of a selector's method, where [max]
    is taken: what the loop recorded when it ran to its end, and nothing
    for the Constant selector.  When the loop of the CrossValidated selector
    raises, the method leaves through its handler and what [model_list]
    held by then reaches nothing: this list is empty then, whatever had
    been recorded. *)
Definition recorded_candidates (L : hmmlearn) (k : selector_kind)
  (self : ModelSelector) : list (pyobj * Q) :=
  let loop :=
    match k with
    | Constant => ret []
    | BIC => SelectorBIC_while L (range_size self) (min_n_components self) []
    | DIC => SelectorDIC_while L (range_size self) (min_n_components self) []
    | CrossValidated =>
        SelectorCV_while L 3 (range_size self) (min_n_components self) []
    end in
  match snd (loop self) with
  | Return model_list => model_list
  | Raise _ => []
  end.

(** The recorded keys are models of pairwise different state counts, all at
    least [n]: as dict keys they never meet an equal key. *)
Definition fresh_keys (n : Z) (recorded : list (pyobj * Q)) : Prop :=
  Forall (fun e => exists m, fst e = PyModel m /\ n <= n_components m) recorded
  /\ NoDup (map fst recorded).

(** ** Closed forms of the loops *)

(** The state counts a loop visits: [count] of them from [n] on. *)
Fixpoint range_from (n : Z) (count : nat) : list Z :=
  match count with
  | O => []
  | S count' => n :: range_from (n + 1) count'
  end.

(** The candidates of a selector, in the order of its loop. *)
Definition candidates (self : ModelSelector) : list Z :=
  range_from (min_n_components self) (range_size self).

(** What one turn of the loop of [SelectorBIC.select] adds to
    [model_list]: the fitted model with its BIC when fit and score succeed,
    nothing otherwise. *)
Definition bic_entry (L : hmmlearn) (self : ModelSelector) (n : Z)
  : list (pyobj * Q) :=
  let hmm_model := fit_result L n (random_state self) (X self) (lengths self) in
  match obj_score L hmm_model (X self) (lengths self) with
  | Return test_score =>
      [(hmm_model, scoreBIC L test_score n (List.length (X self)))]
  | Raise _ => []
  end.

(** What one turn of the loop of [SelectorDIC.select] adds. *)
Definition dic_entry (L : hmmlearn) (self : ModelSelector) (n : Z)
  : list (pyobj * Q) :=
  let hmm_model := fit_result L n (random_state self) (X self) (lengths self) in
  match obj_score L hmm_model (X self) (lengths self) with
  | Return this_word_score =>
      match snd (calculate_avgscore_otherwords L (this_word self) (PyInt n)
                                               self) with
      | Return otherwords_avgscore =>
          [(hmm_model, (this_word_score - otherwords_avgscore)%Q)]
      | Raise _ => []
      end
  | Raise _ => []
  end.

(** The words of the corpus other than [w], in the corpus' order. *)
Definition other_words (self : ModelSelector) (w : word) : list word :=
  filter (fun w' => negb (String.eqb w' w)) (dict_keys (words self)).

(** The score of [hmm_model] on the data of the word [w'], when the word has
    data and the score succeeds. *)
Definition word_score (L : hmmlearn) (self : ModelSelector) (hmm_model : pyobj)
  (w' : word) : list Q :=
  match dict_get (hwords self) w' with
  | Return xl =>
      match obj_score L hmm_model (fst xl) (snd xl) with
      | Return s => [s]
      | Raise _ => []
      end
  | Raise _ => []
  end.

(** The scores of [hmm_model] on the other words that it can score. *)
Definition other_scores (L : hmmlearn) (self : ModelSelector)
  (hmm_model : pyobj) (w : word) : list Q :=
  flat_map (word_score L self hmm_model) (other_words self w).

(** A running sum, from the left, as the loops accumulate it. *)
Definition sum_from (acc : Q) (l : list Q) : Q := fold_left Qplus l acc.

(** A selector of "UP" whose [hwords] lacks the word "DOWN". *)
Definition missing_data_selector : ModelSelector :=
  mkSelector corpus_sequences [("UP"%string, concat_form up_sequences)]
             up_sequences
             (fst (concat_form up_sequences)) (snd (concat_form up_sequences))
             "UP"%string 3 2 3 14 false.

(** The size of the [i]-th of the three folds of [n] items. *)
Definition fold_size (n i : nat) : nat :=
  (n / 3 + (if i <? n mod 3 then 1 else 0))%nat.

(** The selector [s'] holds the concatenated form of the training partition
    of one of the folds of the sequence list of [s]. *)
Definition holds_partition (s s' : ModelSelector) : Prop :=
  exists train test,
    In (train, test) (cv_folds s)
    /\ combine_sequences train (sequences s) = Return (X s', lengths s').


(** ** Lemmas on [max] *)

Section PyMax.

Context {K V : Type}.
Variable gt : V -> V -> bool.
Variables le lt : V -> V -> Prop.
Hypothesis gt_true : forall a b, gt a b = true -> lt b a.
Hypothesis gt_false : forall a b, gt a b = false -> le a b.
Hypothesis le_trans : forall a b c, le a b -> le b c -> le a c.
Hypothesis lt_le : forall a b, lt a b -> le a b.
Hypothesis lt_le_trans : forall a b c, lt a b -> le b c -> lt a c.
Hypothesis le_lt_trans : forall a b c, le a b -> lt b c -> lt a c.

Lemma max_from_in (best : K * V) (l : list (K * V)) :
  In (max_from gt best l) (best :: l).
Proof.
  revert best; induction l as [|x rest IH]; intros best; simpl.
  - now left.
  - destruct (gt (snd x) (snd best)).
    + right. apply IH.
    + destruct (IH best) as [E|HI]; [now left | now right; right].
Qed.

Lemma max_from_ge (best : K * V) (l : list (K * V)) :
  best = max_from gt best l \/ lt (snd best) (snd (max_from gt best l)).
Proof.
  revert best; induction l as [|x rest IH]; intros best; simpl.
  - now left.
  - destruct (gt (snd x) (snd best)) eqn:G.
    + right. apply gt_true in G.
      destruct (IH x) as [E|Hlt].
      * now rewrite <- E.
      * eapply lt_le_trans; [exact G | now apply lt_le].
    + apply IH.
Qed.

Lemma max_from_upper (best : K * V) (l : list (K * V)) (e : K * V) :
  In e (best :: l) -> e = max_from gt best l \/ le (snd e) (snd (max_from gt best l)).
Proof.
  revert best; induction l as [|x rest IH]; intros best HI; simpl.
  - destruct HI as [->|[]]. now left.
  - destruct (gt (snd x) (snd best)) eqn:G.
    + destruct HI as [<-|HI].
      * right. apply gt_true in G.
        destruct (max_from_ge x rest) as [E|Hlt].
        -- rewrite <- E. now apply lt_le.
        -- apply lt_le. eapply lt_le_trans; [exact G | now apply lt_le].
      * apply IH. exact HI.
    + destruct HI as [<-|[<-|HI]].
      * apply IH. now left.
      * right. apply gt_false in G.
        destruct (max_from_ge best rest) as [E|Hlt].
        -- now rewrite <- E.
        -- eapply le_trans; [exact G | now apply lt_le].
      * apply IH. now right.
Qed.

Lemma max_from_first (best : K * V) (l : list (K * V)) :
  exists l1 l2,
    best :: l = l1 ++ max_from gt best l :: l2
    /\ forall e, In e l1 -> lt (snd e) (snd (max_from gt best l)).
Proof.
  revert best; induction l as [|x rest IH]; intros best; simpl.
  - exists [], []. split; [reflexivity | intros e []].
  - destruct (gt (snd x) (snd best)) eqn:G.
    + destruct (IH x) as (l1 & l2 & E & Hl1).
      exists (best :: l1), l2. split.
      * simpl. now rewrite E.
      * intros e [<-|HI]; [|now apply Hl1].
        apply gt_true in G.
        destruct (max_from_ge x rest) as [E'|Hlt].
        -- now rewrite <- E'.
        -- eapply lt_le_trans; [exact G | now apply lt_le].
    + destruct (IH best) as (l1 & l2 & E & Hl1).
      destruct l1 as [|b l1'].
      * simpl in E. injection E as E1 E2.
        exists [], (x :: rest). split; [simpl; now rewrite <- E1 | intros e []].
      * simpl in E. injection E as E1 E2. subst b.
        exists (best :: x :: l1'), l2. split.
        -- simpl. do 2 f_equal. exact E2.
        -- intros e [<-|[<-|HI]].
           ++ apply Hl1. now left.
           ++ apply gt_false in G. eapply le_lt_trans; [exact G|].
              apply Hl1. now left.
           ++ apply Hl1. now right.
Qed.

End PyMax.

(** ** The two orders *)

Lemma Qgtb_true (a b : Q) : Qgtb a b = true -> (b < a)%Q.
Proof.
  unfold Qgtb. intros H. apply negb_true_iff in H.
  apply Qnot_le_lt. intros Hle. apply Qle_bool_iff in Hle. congruence.
Qed.

Lemma Qgtb_false (a b : Q) : Qgtb a b = false -> (a <= b)%Q.
Proof.
  unfold Qgtb. intros H. apply negb_false_iff in H. now apply Qle_bool_iff.
Qed.

Lemma pyfloat_gtb_true (a b : pyfloat) : pyfloat_gtb a b = true -> pyfloat_lt b a.
Proof.
  destruct a, b; simpl; try discriminate; auto. apply Qgtb_true.
Qed.

Lemma pyfloat_gtb_false (a b : pyfloat) : pyfloat_gtb a b = false -> pyfloat_le a b.
Proof.
  destruct a, b; simpl; try discriminate; auto. apply Qgtb_false.
Qed.

Lemma pyfloat_le_refl (a : pyfloat) : pyfloat_le a a.
Proof. destruct a; simpl; auto. apply Qle_refl. Qed.

Lemma pyfloat_le_trans (a b c : pyfloat) :
  pyfloat_le a b -> pyfloat_le b c -> pyfloat_le a c.
Proof.
  destruct a, b, c; simpl; auto; try contradiction. apply Qle_trans.
Qed.

Lemma pyfloat_lt_le (a b : pyfloat) : pyfloat_lt a b -> pyfloat_le a b.
Proof. destruct a, b; simpl; auto. apply Qlt_le_weak. Qed.

Lemma pyfloat_lt_le_trans (a b c : pyfloat) :
  pyfloat_lt a b -> pyfloat_le b c -> pyfloat_lt a c.
Proof.
  destruct a, b, c; simpl; auto; try contradiction. apply Qlt_le_trans.
Qed.

Lemma pyfloat_le_lt_trans (a b c : pyfloat) :
  pyfloat_le a b -> pyfloat_lt b c -> pyfloat_lt a c.
Proof.
  destruct a, b, c; simpl; auto; try contradiction. apply Qle_lt_trans.
Qed.

(** [max] over a non-empty dict gives the first key of greatest value. *)
Lemma py_max_first_max {K V : Type} (gt : V -> V -> bool) (le lt : V -> V -> Prop)
  (d : list (K * V)) :
  (forall a b, gt a b = true -> lt b a) ->
  (forall a b, gt a b = false -> le a b) ->
  (forall a, le a a) ->
  (forall a b c, le a b -> le b c -> le a c) ->
  (forall a b, lt a b -> le a b) ->
  (forall a b c, lt a b -> le b c -> lt a c) ->
  (forall a b c, le a b -> lt b c -> lt a c) ->
  d <> [] ->
  exists k v, py_max gt d = Return k /\ first_max le lt d k v.
Proof.
  intros G1 G2 Hr Ht Hw Hlt1 Hlt2 Hne.
  destruct d as [|x rest]; [congruence|].
  exists (fst (max_from gt x rest)), (snd (max_from gt x rest)).
  split; [reflexivity|]. unfold first_max. rewrite <- surjective_pairing. split.
  - eapply max_from_first; eauto.
  - intros e HI.
    destruct (max_from_upper gt le lt G1 G2 Ht Hw Hlt1 x rest e HI) as [->|H];
      [apply Hr | exact H].
Qed.

Lemma py_max_pyfloat (d : list (word * pyfloat)) :
  d <> [] ->
  exists k v, py_max pyfloat_gtb d = Return k
              /\ first_max pyfloat_le pyfloat_lt d k v.
Proof.
  apply py_max_first_max.
  - apply pyfloat_gtb_true.
  - apply pyfloat_gtb_false.
  - apply pyfloat_le_refl.
  - apply pyfloat_le_trans.
  - apply pyfloat_lt_le.
  - apply pyfloat_lt_le_trans.
  - apply pyfloat_le_lt_trans.
Qed.

Lemma py_max_Q (d : list (pyobj * Q)) :
  d <> [] ->
  exists k v, py_max Qgtb d = Return k /\ first_max Qle Qlt d k v.
Proof.
  apply py_max_first_max.
  - apply Qgtb_true.
  - apply Qgtb_false.
  - apply Qle_refl.
  - apply Qle_trans.
  - apply Qlt_le_weak.
  - apply Qlt_le_trans.
  - apply Qle_lt_trans.
Qed.

Lemma first_max_in {K V : Type} (le lt : V -> V -> Prop) (d : list (K * V))
  (k : K) (v : V) :
  first_max le lt d k v -> In (k, v) d.
Proof.
  intros [(d1 & d2 & -> & _) _]. apply in_or_app. right. now left.
Qed.

(** ** Dicts *)

Lemma dict_set_fresh {V : Type} (d : list (word * V)) (k : word) (v : V) :
  ~ In k (dict_keys d) -> dict_set d k v = d ++ [(k, v)].
Proof.
  induction d as [|[k' v'] rest IH]; simpl; intros Hn; [reflexivity|].
  destruct (String.eqb k' k) eqn:E.
  - apply String.eqb_eq in E. tauto.
  - rewrite IH; [reflexivity | tauto].
Qed.

Lemma dict_get_in {V : Type} (d : list (word * V)) (k : word) (v : V) :
  dict_wf d -> In (k, v) d -> dict_get d k = Return v.
Proof.
  unfold dict_wf, dict_keys.
  induction d as [|[k' v'] rest IH]; simpl; intros Hnd HI; [contradiction|].
  inversion Hnd as [|? ? Hnot Hnd']; subst.
  destruct HI as [E|HI].
  - injection E as -> ->. now rewrite String.eqb_refl.
  - destruct (String.eqb k' k) eqn:E.
    + apply String.eqb_eq in E. subst k'. exfalso. apply Hnot.
      change k with (fst (k, v)). now apply in_map.
    + now apply IH.
Qed.

(** ** The recognizer *)

Section RecognizerFacts.

Variable L : hmmlearn.

Lemma recognize_scores_fresh (items : list (word * pyobj))
  (cx : list frame) (cl : list nat) (d : list (word * pyfloat)) :
  NoDup (dict_keys d ++ dict_keys items) ->
  recognize_scores L items cx cl d = d ++ score_map L items (cx, cl).
Proof.
  revert d. induction items as [|[w m] rest IH]; intros d Hnd; simpl.
  - now rewrite app_nil_r.
  - assert (Hfresh : ~ In w (dict_keys d)).
    { intros HI. apply NoDup_remove_2 in Hnd. apply Hnd.
      apply in_or_app. now left. }
    assert (Hnd' : NoDup (dict_keys (d ++ [(w, recorded_score L m (cx, cl))])
                          ++ dict_keys rest)).
    { unfold dict_keys in *. rewrite map_app. simpl. now rewrite <- app_assoc. }
    assert (Hstep :
      match obj_score L m cx cl with
      | Return score => dict_set d w (Finite score)
      | Raise _ => dict_set d w NegInf
      end = dict_set d w (recorded_score L m (cx, cl))).
    { unfold recorded_score. simpl. destruct (obj_score L m cx cl); reflexivity. }
    rewrite Hstep, dict_set_fresh by exact Hfresh.
    rewrite IH by exact Hnd'. rewrite <- app_assoc. reflexivity.
Qed.

Lemma score_map_keys (models : list (word * pyobj)) (item : list frame * list nat) :
  dict_keys (score_map L models item) = dict_keys models.
Proof.
  unfold dict_keys, score_map. rewrite map_map. reflexivity.
Qed.

Lemma score_map_length (models : list (word * pyobj)) (item : list frame * list nat) :
  List.length (score_map L models item) = List.length models.
Proof. unfold score_map. apply length_map. Qed.

Lemma get_all_Xlengths_length (test_set : SinglesData) :
  List.length (get_all_Xlengths test_set) = List.length test_set.
Proof.
  unfold get_all_Xlengths. rewrite length_combine, length_seq.
  apply Nat.min_id.
Qed.

Lemma get_item_Xlengths_middle (pre rest : SinglesData)
  (item : list frame * list nat) :
  get_item_Xlengths (pre ++ item :: rest) (List.length pre) = Return item.
Proof.
  unfold get_item_Xlengths.
  rewrite nth_error_app2 by apply Nat.le_refl.
  now rewrite Nat.sub_diag.
Qed.

Lemma score_map_nonempty (models : list (word * pyobj))
  (item : list frame * list nat) :
  models <> [] -> score_map L models item <> [].
Proof. destruct models; [congruence | discriminate]. Qed.

Lemma recognize_for_spec (models : list (word * pyobj)) :
  models <> [] -> dict_wf models ->
  forall (rest pre : SinglesData) probabilities guesses,
  exists gs,
    recognize_for L (seq (List.length pre) (List.length rest)) models
                  (pre ++ rest) probabilities guesses
    = Return (probabilities ++ map (score_map L models) rest, guesses ++ gs)
    /\ Forall2 (guess_of L models) rest gs.
Proof.
  intros Hne Hwf. induction rest as [|item rest IH]; intros pre probs guesses.
  - exists []. simpl. rewrite !app_nil_r. split; [reflexivity | constructor].
  - simpl. rewrite get_item_Xlengths_middle. destruct item as [cx cl].
    rewrite recognize_scores_fresh by exact Hwf. simpl app.
    destruct (py_max_pyfloat (score_map L models (cx, cl))) as (g & v & Hg & _).
    { now apply score_map_nonempty. }
    rewrite Hg.
    destruct (IH (pre ++ [(cx, cl)]) (probs ++ [score_map L models (cx, cl)])
                 (guesses ++ [g])) as (gs & Hrec & Hall).
    rewrite length_app, Nat.add_1_r, <- app_assoc in Hrec. simpl in Hrec.
    exists (g :: gs). split.
    + rewrite Hrec. now rewrite <- !app_assoc.
    + constructor; assumption.
Qed.

Lemma recognize_spec (models : list (word * pyobj)) (test_set : SinglesData) :
  models <> [] -> dict_wf models ->
  exists gs,
    recognize L models test_set = Return (map (score_map L models) test_set, gs)
    /\ Forall2 (guess_of L models) test_set gs.
Proof.
  intros Hne Hwf. unfold recognize. rewrite get_all_Xlengths_length.
  destruct (recognize_for_spec models Hne Hwf test_set [] [] [])
    as (gs & Hrec & Hall).
  exists gs. split; [exact Hrec | exact Hall].
Qed.

Lemma recognize_no_models (item : list frame * list nat) (rest : SinglesData) :
  recognize L [] (item :: rest) = Raise ValueError.
Proof.
  unfold recognize. rewrite get_all_Xlengths_length. simpl.
  destruct item. reflexivity.
Qed.

Lemma guess_of_key (models : list (word * pyobj)) (item : list frame * list nat)
  (g : word) :
  guess_of L models item g -> In g (dict_keys models).
Proof.
  unfold guess_of. intros Hg.
  destruct (score_map L models item) as [|x rest] eqn:E; [discriminate|].
  simpl in Hg. injection Hg as <-.
  rewrite <- (score_map_keys models item), E.
  unfold dict_keys. apply in_map. apply max_from_in.
Qed.

End RecognizerFacts.

(** ** The selectors of the corpus are what [__init__] builds *)

Lemma up_selector_init (n_const min_n max_n : Z) :
  ModelSelector_init corpus_sequences corpus_Xlengths "UP"%string
                     n_const min_n max_n 14 false
  = Return (up_selector n_const min_n max_n).
Proof. reflexivity. Qed.

Lemma down_selector_init (n_const min_n max_n : Z) :
  ModelSelector_init corpus_sequences corpus_Xlengths "DOWN"%string
                     n_const min_n max_n 14 false
  = Return (down_selector n_const min_n max_n).
Proof. reflexivity. Qed.

Lemma selector_of_consistent (w : word) (seqs : list (list frame))
  (n_const min_n max_n : Z) :
  consistent (selector_of w seqs n_const min_n max_n).
Proof. reflexivity. Qed.

Lemma Forall2_nth_error {A B : Type} (R : A -> B -> Prop) (l1 : list A)
  (l2 : list B) (i : nat) (a : A) :
  Forall2 R l1 l2 -> nth_error l1 i = Some a ->
  exists b, nth_error l2 i = Some b /\ R a b.
Proof.
  intros H. revert i. induction H as [|x y l1 l2 Hxy _ IH]; intros i Hi.
  - destruct i; discriminate.
  - destruct i as [|i]; simpl in *.
    + injection Hi as <-. now exists y.
    + now apply IH.
Qed.

Lemma Forall2_length_eq {A B : Type} (R : A -> B -> Prop) (l1 : list A)
  (l2 : list B) :
  Forall2 R l1 l2 -> List.length l2 = List.length l1.
Proof. induction 1; simpl; congruence. Qed.

Lemma two_models_wf : dict_wf two_models.
Proof.
  unfold dict_wf, two_models, dict_keys. simpl.
  repeat constructor; simpl; intuition discriminate.
Qed.

(** C4, as stated, fails: with an empty model mapping and one test item
    [recognize] raises [ValueError] and returns no lists at all. *)
Lemma recognize_empty_mapping_raises :
  recognize lib_ok [] one_item = Raise ValueError.
Proof. reflexivity. Qed.

(** C4 (amended): for every non-empty model mapping of size v (or an empty
    test set) and every test set of m items, [recognize] returns a
    probabilities list and a guesses list of length exactly m, ordered by
    test-item index; each score map has exactly v entries, one per word of
    the mapping, and each guess is a key of the mapping. *)
Theorem recognize_output_shape (L : hmmlearn) (models : list (word * pyobj))
  (test_set : SinglesData) :
  dict_wf models ->
  models <> [] \/ test_set = [] ->
  exists probabilities guesses,
    recognize L models test_set = Return (probabilities, guesses)
    /\ List.length probabilities = List.length test_set
    /\ List.length guesses = List.length test_set
    /\ (forall i item, nth_error test_set i = Some item ->
          nth_error probabilities i = Some (score_map L models item)
          /\ exists g, nth_error guesses i = Some g /\ guess_of L models item g)
    /\ Forall (fun d => List.length d = List.length models
                        /\ dict_keys d = dict_keys models) probabilities
    /\ Forall (fun g => In g (dict_keys models)) guesses.
Proof.
  intros Hwf [Hne | ->].
  - destruct (recognize_spec L models test_set Hne Hwf) as (gs & Hrec & Hall).
    exists (map (score_map L models) test_set), gs.
    split; [exact Hrec|]. split; [apply length_map|].
    split; [now apply Forall2_length_eq with (R := guess_of L models)|].
    split; [|split].
    + intros i item Hi. split.
      * now apply map_nth_error.
      * eapply Forall2_nth_error; eauto.
    + apply Forall_forall. intros d Hd. apply in_map_iff in Hd.
      destruct Hd as (item & <- & _). split.
      * apply score_map_length.
      * apply score_map_keys.
    + clear Hrec. induction Hall as [|item g l1 l2 Hg _ IH]; constructor.
      * eapply guess_of_key; eauto.
      * exact IH.
  - exists [], []. split; [reflexivity|]. repeat split; try constructor.
    + destruct i; discriminate.
    + destruct i; discriminate.
Qed.

Lemma recognize_output_shape_witness :
  exists probabilities guesses,
    recognize lib_ok two_models two_items = Return (probabilities, guesses)
    /\ List.length probabilities = 2%nat
    /\ List.length guesses = 2%nat
    /\ (forall i item, nth_error two_items i = Some item ->
          nth_error probabilities i = Some (score_map lib_ok two_models item)
          /\ exists g, nth_error guesses i = Some g
                       /\ guess_of lib_ok two_models item g)
    /\ Forall (fun d => List.length d = 2%nat
                        /\ dict_keys d = dict_keys two_models) probabilities
    /\ Forall (fun g => In g (dict_keys two_models)) guesses.
Proof.
  apply (recognize_output_shape lib_ok two_models two_items).
  - exact two_models_wf.
  - left. discriminate.
Defined.

(** C5: for every test item and every word of a non-empty model mapping, the
    item's score map holds the model's score, and negative infinity when
    scoring under that word's model fails; the failure does not stop the
    item, whose map still has every word of the mapping, in the mapping's
    order.  The item's guess is a word of greatest recorded score, the first
    such word in that order. *)
Theorem recognize_item_scores_and_guess (L : hmmlearn)
  (models : list (word * pyobj)) (test_set : SinglesData) (i : nat)
  (item : list frame * list nat) :
  dict_wf models ->
  models <> [] ->
  nth_error test_set i = Some item ->
  exists probabilities guesses d guess v,
    recognize L models test_set = Return (probabilities, guesses)
    /\ nth_error probabilities i = Some d
    /\ nth_error guesses i = Some guess
    /\ dict_keys d = dict_keys models
    /\ (forall w model, In (w, model) models ->
          dict_get d w = Return (recorded_score L model item)
          /\ forall e, obj_score L model (fst item) (snd item) = Raise e ->
                       dict_get d w = Return NegInf)
    /\ first_max pyfloat_le pyfloat_lt d guess v.
Proof.
  intros Hwf Hne Hi.
  destruct (recognize_spec L models test_set Hne Hwf) as (gs & Hrec & Hall).
  destruct (Forall2_nth_error _ _ _ _ _ Hall Hi) as (g & Hg & Hguess).
  destruct (py_max_pyfloat (score_map L models item)) as (k & v & Hk & Hfirst).
  { now apply score_map_nonempty. }
  unfold guess_of in Hguess. rewrite Hk in Hguess. injection Hguess as ->.
  exists (map (score_map L models) test_set), gs, (score_map L models item), g, v.
  split; [exact Hrec|]. split; [now apply map_nth_error|].
  split; [exact Hg|]. split; [apply score_map_keys|]. split; [|exact Hfirst].
  intros w model HI.
  assert (Hget : dict_get (score_map L models item) w
                 = Return (recorded_score L model item)).
  { apply dict_get_in.
    - unfold dict_wf. now rewrite score_map_keys.
    - unfold score_map.
      change (w, recorded_score L model item)
        with ((fun wm : word * pyobj => (fst wm, recorded_score L (snd wm) item))
                (w, model)).
      now apply in_map. }
  split; [exact Hget|].
  intros e He. rewrite Hget. unfold recorded_score. now rewrite He.
Qed.

Lemma recognize_item_scores_and_guess_witness :
  exists probabilities guesses d guess v,
    recognize lib_ok two_models two_items = Return (probabilities, guesses)
    /\ nth_error probabilities 1 = Some d
    /\ nth_error guesses 1 = Some guess
    /\ dict_keys d = dict_keys two_models
    /\ (forall w model, In (w, model) two_models ->
          dict_get d w
          = Return (recorded_score lib_ok model (concat_form down_sequences))
          /\ forall e,
               obj_score lib_ok model (fst (concat_form down_sequences))
                         (snd (concat_form down_sequences)) = Raise e ->
               dict_get d w = Return NegInf)
    /\ first_max pyfloat_le pyfloat_lt d guess v.
Proof.
  apply (recognize_item_scores_and_guess lib_ok two_models two_items 1
           (concat_form down_sequences)).
  - exact two_models_wf.
  - discriminate.
  - reflexivity.
Defined.

(** C10: for every non-empty test set, [recognize] with an empty model
    mapping raises (the [max] over the empty score map of the first item is a
    [ValueError]); so whenever it returns a result the mapping has at least
    one word. *)
Theorem recognize_completes_only_with_models (L : hmmlearn)
  (test_set : SinglesData) :
  test_set <> [] ->
  recognize L [] test_set = Raise ValueError
  /\ forall models r, recognize L models test_set = Return r -> models <> [].
Proof.
  intros Hne. destruct test_set as [|item rest]; [congruence|].
  split; [apply recognize_no_models|].
  intros models r Hr ->. rewrite recognize_no_models in Hr. discriminate.
Qed.

Lemma recognize_completes_only_with_models_witness :
  recognize lib_nofit [] two_items = Raise ValueError
  /\ forall models r,
       recognize lib_nofit models two_items = Return r -> models <> [].
Proof.
  apply (recognize_completes_only_with_models lib_nofit two_items).
  discriminate.
Defined.

(** ** The monad *)

Lemma bind_Return {A B : Type} (c : Py A) (k : A -> Py B) self self' a :
  c self = (self', Return a) -> bind c k self = k a self'.
Proof. unfold bind. now intros ->. Qed.

Lemma bind_Raise {A B : Type} (c : Py A) (k : A -> Py B) self self' e :
  c self = (self', Raise e) -> bind c k self = (self', Raise e).
Proof. unfold bind. now intros ->. Qed.

Lemma stateless_ret {A : Type} (a : A) : stateless (ret a).
Proof. intros self. reflexivity. Qed.

Lemma stateless_lift {A : Type} (o : outcome A) : stateless (lift o).
Proof. intros self. reflexivity. Qed.

Lemma stateless_get_self : stateless get_self.
Proof. intros self. reflexivity. Qed.

Lemma stateless_bind {A B : Type} (c : Py A) (k : A -> Py B) :
  stateless c -> (forall a, stateless (k a)) -> stateless (bind c k).
Proof.
  intros Hc Hk self. unfold bind. specialize (Hc self).
  destruct (c self) as [self' [a|e]]; simpl in *; subst self'.
  - apply Hk.
  - reflexivity.
Qed.

Lemma stateless_try_except {A : Type} (body handler : Py A) :
  stateless body -> stateless handler -> stateless (try_except body handler).
Proof.
  intros Hb Hh self. unfold try_except. specialize (Hb self).
  destruct (body self) as [self' [a|e]]; simpl in *; subst self'.
  - reflexivity.
  - apply Hh.
Qed.

Lemma stateless_eq {A : Type} (c : Py A) self :
  stateless c -> c self = (self, snd (c self)).
Proof.
  intros H. specialize (H self). destruct (c self) as [s r]. simpl in *.
  now subst.
Qed.

Section SelectorFacts.

Variable L : hmmlearn.

Lemma base_model_eq (n : Z) (self : ModelSelector) :
  base_model L n self
  = (self, Return (fit_result L n (random_state self) (X self) (lengths self))).
Proof.
  unfold base_model, try_except, bind, get_self, lift, ret, GaussianHMM_fit,
    fit_result.
  destruct (fit_converges L n (random_state self) (X self) (lengths self));
    reflexivity.
Qed.

Lemma stateless_base_model (n : Z) : stateless (base_model L n).
Proof. intros self. now rewrite base_model_eq. Qed.

Lemma fit_result_cases (n seed : Z) (x : list frame) (ls : list nat) :
  fit_result L n seed x ls = PyNone
  \/ fit_result L n seed x ls = PyModel (mkHMM n seed x ls).
Proof. unfold fit_result. destruct (fit_converges L n seed x ls); auto. Qed.

Lemma obj_score_Return (o : pyobj) (x : list frame) (ls : list nat) (s : Q) :
  obj_score L o x ls = Return s -> exists m, o = PyModel m.
Proof. destruct o; simpl; try discriminate. intros _. now eexists. Qed.

Lemma SelectorConstant_select_eq (self : ModelSelector) :
  SelectorConstant_select L self
  = (self, Return (fit_result L (n_constant self) (random_state self)
                              (X self) (lengths self))).
Proof.
  unfold SelectorConstant_select, bind, get_self. apply base_model_eq.
Qed.

(** One turn of the [try] block of [SelectorBIC.select]. *)
Lemma SelectorBIC_try_eq (hmm_model : pyobj) (n : Z)
  (model_list : list (pyobj * Q)) (self : ModelSelector) :
  try_except
    (bind get_self (fun self =>
       bind (lift (obj_score L hmm_model (X self) (lengths self)))
            (fun test_score =>
               ret (model_list
                      ++ [(hmm_model,
                           scoreBIC L test_score n (List.length (X self)))]))))
    (ret model_list) self
  = (self,
     Return
       match obj_score L hmm_model (X self) (lengths self) with
       | Return test_score =>
           model_list
             ++ [(hmm_model, scoreBIC L test_score n (List.length (X self)))]
       | Raise _ => model_list
       end).
Proof.
  unfold try_except, bind, get_self, lift, ret.
  destruct (obj_score L hmm_model (X self) (lengths self)); reflexivity.
Qed.

Lemma obj_score_fit_result (n : Z) (self : ModelSelector) (s : Q) :
  obj_score L (fit_result L n (random_state self) (X self) (lengths self))
            (X self) (lengths self) = Return s ->
  fit_result L n (random_state self) (X self) (lengths self)
  = PyModel (own_model self n)
  /\ hmm_score L (own_model self n) (X self) (lengths self) = Some s.
Proof.
  intros Hs.
  destruct (fit_result_cases n (random_state self) (X self) (lengths self))
    as [E|E]; rewrite E in Hs; [discriminate|].
  split; [exact E|]. simpl in Hs. unfold own_model.
  destruct (hmm_score L _ (X self) (lengths self)); [|discriminate].
  now injection Hs as ->.
Qed.

Lemma SelectorBIC_while_inv (fuel : nat) :
  forall (n : Z) (model_list : list (pyobj * Q)) (self : ModelSelector),
  exists recorded,
    SelectorBIC_while L fuel n model_list self
    = (self, Return (model_list ++ recorded))
    /\ Forall (bic_recorded L self) recorded.
Proof.
  induction fuel as [|fuel IH]; intros n ml self.
  - exists []. simpl. rewrite app_nil_r. split; [reflexivity | constructor].
  - cbn [SelectorBIC_while]. unfold bind at 1, get_self at 1.
    destruct ((min_n_components self <=? n) && (n <=? max_n_components self))
      eqn:Hc.
    + erewrite bind_Return by apply base_model_eq.
      erewrite bind_Return by apply SelectorBIC_try_eq.
      apply andb_true_iff in Hc. destruct Hc as [H1 H2].
      apply Z.leb_le in H1. apply Z.leb_le in H2.
      set (hmm_model := fit_result L n (random_state self) (X self)
                                   (lengths self)).
      destruct (obj_score L hmm_model (X self) (lengths self)) as [s|e] eqn:Hs;
        [|apply IH].
      destruct (IH (n + 1)
                   (ml ++ [(hmm_model, scoreBIC L s n (List.length (X self)))])
                   self) as (rec & Hrec & Hall).
      exists ((hmm_model, scoreBIC L s n (List.length (X self))) :: rec).
      split.
      * rewrite Hrec. now rewrite <- app_assoc.
      * constructor; [|exact Hall].
        destruct (obj_score_fit_result n self s Hs) as [Hm Hscore].
        exists n, s. unfold in_range. cbn [fst snd]. repeat split; auto; lia.
    + exists []. rewrite app_nil_r. split; [reflexivity | constructor].
Qed.

Lemma bic_recorded_candidate (self : ModelSelector) (e : pyobj * Q) :
  bic_recorded L self e -> candidate_model self (fst e).
Proof.
  intros (n & s & Hr & Hk & _). exists (own_model self n). now split.
Qed.

Lemma dic_recorded_candidate (self : ModelSelector) (e : pyobj * Q) :
  dic_recorded L self e -> candidate_model self (fst e).
Proof.
  intros (n & s & avg & Hr & Hk & _). exists (own_model self n). now split.
Qed.

Lemma stateless_avgscore_for (ws : list word) (except_this_word : word)
  (hmm_model : pyobj) :
  forall average_score num_words,
    stateless (avgscore_for L ws except_this_word hmm_model average_score
                            num_words).
Proof.
  induction ws as [|w rest IH]; intros avg num; simpl.
  - apply stateless_ret.
  - destruct (String.eqb w except_this_word); [apply IH|].
    apply stateless_bind; [apply stateless_get_self|]. intros self.
    apply stateless_bind; [apply stateless_lift|]. intros [this_X this_lengths].
    apply stateless_bind.
    + apply stateless_try_except; [|apply stateless_ret].
      apply stateless_bind; [apply stateless_lift|]. intros score.
      apply stateless_ret.
    + intros [avg' num']. apply IH.
Qed.

Lemma stateless_calculate_avgscore_otherwords (except_this_word : word)
  (hmm_model : pyobj) :
  stateless (calculate_avgscore_otherwords L except_this_word hmm_model).
Proof.
  unfold calculate_avgscore_otherwords.
  apply stateless_bind; [apply stateless_get_self|]. intros self.
  apply stateless_bind; [apply stateless_avgscore_for|]. intros [avg num].
  destruct (0 <? num); apply stateless_ret.
Qed.

(** One turn of the [try] block of [SelectorDIC.select]. *)
Lemma SelectorDIC_try_eq (hmm_model : pyobj) (n : Z)
  (model_list : list (pyobj * Q)) (self : ModelSelector) :
  try_except
    (bind get_self (fun self =>
       bind (lift (obj_score L hmm_model (X self) (lengths self)))
            (fun this_word_score =>
               bind (calculate_avgscore_otherwords L (this_word self) (PyInt n))
                    (fun otherwords_avgscore =>
                       ret (model_list
                              ++ [(hmm_model,
                                   (this_word_score - otherwords_avgscore)%Q)])))))
    (ret model_list) self
  = (self,
     Return
       match obj_score L hmm_model (X self) (lengths self) with
       | Return this_word_score =>
           match snd (calculate_avgscore_otherwords L (this_word self)
                                                    (PyInt n) self) with
           | Return otherwords_avgscore =>
               model_list
                 ++ [(hmm_model, (this_word_score - otherwords_avgscore)%Q)]
           | Raise _ => model_list
           end
       | Raise _ => model_list
       end).
Proof.
  unfold try_except, bind at 1, get_self at 1. unfold bind at 1, lift at 1.
  destruct (obj_score L hmm_model (X self) (lengths self)); [|reflexivity].
  unfold bind.
  rewrite (stateless_eq _ self
             (stateless_calculate_avgscore_otherwords (this_word self) (PyInt n))).
  destruct (snd (calculate_avgscore_otherwords L (this_word self) (PyInt n) self));
    reflexivity.
Qed.

Lemma SelectorDIC_while_inv (fuel : nat) :
  forall (n : Z) (model_list : list (pyobj * Q)) (self : ModelSelector),
  exists recorded,
    SelectorDIC_while L fuel n model_list self
    = (self, Return (model_list ++ recorded))
    /\ Forall (dic_recorded L self) recorded.
Proof.
  induction fuel as [|fuel IH]; intros n ml self.
  - exists []. simpl. rewrite app_nil_r. split; [reflexivity | constructor].
  - cbn [SelectorDIC_while]. unfold bind at 1, get_self at 1.
    destruct ((min_n_components self <=? n) && (n <=? max_n_components self))
      eqn:Hc.
    + erewrite bind_Return by apply base_model_eq.
      erewrite bind_Return by apply SelectorDIC_try_eq.
      apply andb_true_iff in Hc. destruct Hc as [H1 H2].
      apply Z.leb_le in H1. apply Z.leb_le in H2.
      set (hmm_model := fit_result L n (random_state self) (X self)
                                   (lengths self)).
      destruct (obj_score L hmm_model (X self) (lengths self)) as [s|e] eqn:Hs;
        [|apply IH].
      destruct (snd (calculate_avgscore_otherwords L (this_word self) (PyInt n)
                                                   self)) as [avg|e] eqn:Havg;
        [|apply IH].
      destruct (IH (n + 1) (ml ++ [(hmm_model, (s - avg)%Q)]) self)
        as (rec & Hrec & Hall).
      exists ((hmm_model, (s - avg)%Q) :: rec). split.
      * rewrite Hrec. now rewrite <- app_assoc.
      * constructor; [|exact Hall].
        destruct (obj_score_fit_result n self s Hs) as [Hm Hscore].
        exists n, s, avg. unfold in_range. cbn [fst snd].
        repeat split; auto; lia.
    + exists []. rewrite app_nil_r. split; [reflexivity | constructor].
Qed.

(** The end of [SelectorBIC.select] and of [SelectorDIC.select]. *)
Lemma fallback_or_max_eq (model_list : list (pyobj * Q)) (self : ModelSelector) :
  (if (List.length model_list =? 0)%nat
   then bind get_self (fun self => base_model L (n_constant self))
   else lift (py_max Qgtb model_list)) self
  = (self, fallback_or_max L self model_list).
Proof.
  destruct model_list as [|x rest]; simpl.
  - unfold bind, get_self. apply base_model_eq.
  - reflexivity.
Qed.

Lemma SelectorBIC_select_eq (self : ModelSelector) :
  exists recorded,
    SelectorBIC_while L (range_size self) (min_n_components self) [] self
    = (self, Return recorded)
    /\ Forall (bic_recorded L self) recorded
    /\ SelectorBIC_select L self = (self, fallback_or_max L self recorded).
Proof.
  destruct (SelectorBIC_while_inv (range_size self) (min_n_components self) []
                                  self) as (rec & Hrec & Hall).
  simpl in Hrec. exists rec. split; [exact Hrec|]. split; [exact Hall|].
  unfold SelectorBIC_select. unfold bind at 1, get_self at 1.
  erewrite bind_Return by exact Hrec. apply fallback_or_max_eq.
Qed.

Lemma SelectorDIC_select_eq (self : ModelSelector) :
  exists recorded,
    SelectorDIC_while L (range_size self) (min_n_components self) [] self
    = (self, Return recorded)
    /\ Forall (dic_recorded L self) recorded
    /\ SelectorDIC_select L self = (self, fallback_or_max L self recorded).
Proof.
  destruct (SelectorDIC_while_inv (range_size self) (min_n_components self) []
                                  self) as (rec & Hrec & Hall).
  simpl in Hrec. exists rec. split; [exact Hrec|]. split; [exact Hall|].
  unfold SelectorDIC_select. unfold bind at 1, get_self at 1.
  erewrite bind_Return by exact Hrec. apply fallback_or_max_eq.
Qed.

(** What [fallback_or_max] returns: the fallback fit when nothing was
    recorded, otherwise a recorded key of greatest score. *)
Lemma fallback_or_max_cases (self : ModelSelector) (recorded : list (pyobj * Q)) :
  (recorded = []
   /\ fallback_or_max L self recorded
      = Return (fit_result L (n_constant self) (random_state self)
                           (X self) (lengths self)))
  \/ (exists k v, fallback_or_max L self recorded = Return k
                  /\ first_max Qle Qlt recorded k v).
Proof.
  destruct recorded as [|x rest].
  - left. split; reflexivity.
  - right. destruct (py_max_Q (x :: rest)) as (k & v & Hk & Hf); [discriminate|].
    exists k, v. split; [exact Hk | exact Hf].
Qed.

End SelectorFacts.

(** ** What the DIC selector records *)

Section DICFacts.

Variable L : hmmlearn.

(** Scored with a state count in place of a model, every other word fails
    and the running sum stays as it was. *)
Lemma avgscore_for_PyInt (ws : list word) (except_this_word : word) (n : Z) :
  forall (average_score : Q) (num_words : Z) (self : ModelSelector)
         (average_score' : Q) (num_words' : Z),
    snd (avgscore_for L ws except_this_word (PyInt n) average_score num_words
                      self) = Return (average_score', num_words') ->
    average_score' = average_score.
Proof.
  induction ws as [|w rest IH]; intros avg num self avg' num'; simpl.
  - intros H. now injection H as <- _.
  - destruct (String.eqb w except_this_word); [apply IH|].
    unfold bind at 1, get_self at 1. unfold bind at 1, lift at 1.
    destruct (dict_get (hwords self) w) as [[this_X this_lengths]|e];
      [|discriminate].
    unfold bind at 1, try_except at 1, bind at 1, lift at 1. simpl.
    apply IH.
Qed.

Lemma calculate_avgscore_otherwords_PyInt (except_this_word : word) (n : Z)
  (self : ModelSelector) (avg : Q) :
  snd (calculate_avgscore_otherwords L except_this_word (PyInt n) self)
  = Return avg ->
  (avg == 0)%Q.
Proof.
  unfold calculate_avgscore_otherwords. unfold bind at 1, get_self at 1.
  unfold bind at 1.
  rewrite (stateless_eq _ self (stateless_avgscore_for L _ _ _ _ _)).
  destruct (snd (avgscore_for L (dict_keys (words self)) except_this_word
                              (PyInt n) 0%Q
                              (Z.of_nat (List.length (words self)) - 1) self))
    as [[a k]|e] eqn:E; [|discriminate].
  apply avgscore_for_PyInt in E. subst a.
  destruct (0 <? k); simpl; intros H; injection H as <-.
  - unfold Qdiv. apply Qmult_0_l.
  - reflexivity.
Qed.

(** Every score that [SelectorDIC.select] records is the candidate's score on
    the word's own data: the average over the other words is always 0. *)
Lemma SelectorDIC_records_own_score (self : ModelSelector)
  (e : pyobj * Q) :
  dic_recorded L self e ->
  exists n s,
    fst e = PyModel (own_model self n)
    /\ hmm_score L (own_model self n) (X self) (lengths self) = Some s
    /\ (snd e == s)%Q.
Proof.
  intros (n & s & avg & _ & Hk & Hs & Havg & Hv).
  exists n, s. split; [exact Hk|]. split; [exact Hs|].
  apply calculate_avgscore_otherwords_PyInt in Havg.
  rewrite Hv, Havg. unfold Qminus. setoid_replace (- 0)%Q with 0%Q by reflexivity.
  apply Qplus_0_r.
Qed.

End DICFacts.

(** ** Cross-validation *)

Lemma same_setup_refl (s : ModelSelector) : same_setup s s.
Proof. unfold same_setup. repeat split. Qed.

Lemma same_setup_trans (s1 s2 s3 : ModelSelector) :
  same_setup s1 s2 -> same_setup s2 s3 -> same_setup s1 s3.
Proof.
  unfold same_setup. intros H1 H2.
  decompose [and] H1. decompose [and] H2. repeat split; congruence.
Qed.

Lemma same_setup_with_X_lengths (s : ModelSelector) (xl : list frame * list nat) :
  same_setup s (with_X_lengths s xl).
Proof. unfold same_setup. repeat split. Qed.

(** Three folds, when there are any. *)
Lemma KFold_split_3 (n_samples : nat) (folds : list (list nat * list nat)) :
  KFold_split 3 n_samples = Return folds ->
  (3 <= n_samples)%nat /\ exists f1 f2 f3, folds = [f1; f2; f3].
Proof.
  unfold KFold_split. destruct (n_samples <? 3)%nat eqn:E; [discriminate|].
  intros H. injection H as <-. apply Nat.ltb_ge in E. split; [exact E|].
  unfold fold_sizes. cbn [seq map folds_from]. now eexists _, _, _.
Qed.

Lemma KFold_split_few (n_samples : nat) :
  (n_samples < 3)%nat -> KFold_split 3 n_samples = Raise ValueError.
Proof.
  intros H. unfold KFold_split. apply Nat.ltb_lt in H. now rewrite H.
Qed.

Section CrossValidationFacts.

Variable L : hmmlearn.

(** One turn of the loop over the folds. *)
Lemma SelectorCV_for_cons (train test : list nat)
  (rest : list (list nat * list nat)) (n : Z) (acc : Q) (m : pyobj)
  (self : ModelSelector) :
  SelectorCV_for L ((train, test) :: rest) n acc m self
  = match combine_sequences train (sequences self) with
    | Raise e => (self, Raise e)
    | Return xl =>
        let self1 := with_X_lengths self xl in
        let hmm_model := fit_result L n (random_state self) (fst xl) (snd xl) in
        match combine_sequences test (sequences self) with
        | Raise e => (self1, Raise e)
        | Return test_Xl =>
            match obj_score L hmm_model (fst test_Xl) (snd test_Xl) with
            | Raise e => (self1, Raise e)
            | Return test_score =>
                SelectorCV_for L rest n (acc + test_score)%Q hmm_model self1
            end
        end
    end.
Proof.
  cbn [SelectorCV_for]. unfold bind at 1, get_self at 1.
  unfold bind at 1, lift at 1.
  destruct (combine_sequences train (sequences self)) as [xl|e]; [|reflexivity].
  unfold bind at 1, set_X_lengths at 1.
  erewrite bind_Return by apply base_model_eq.
  unfold bind at 1, get_self at 1. unfold bind at 1, lift at 1.
  cbn [sequences with_X_lengths random_state X lengths].
  destruct (combine_sequences test (sequences self)) as [[tx tl]|e];
    [|reflexivity].
  unfold bind at 1, lift at 1. cbn [fst snd].
  destruct (obj_score L (fit_result L n (random_state self) (fst xl) (snd xl))
                      tx tl); reflexivity.
Qed.

Lemma scored_fit_result (n seed : Z) (x tx : list frame) (ls tl : list nat)
  (s : Q) :
  obj_score L (fit_result L n seed x ls) tx tl = Return s ->
  fit_result L n seed x ls = PyModel (mkHMM n seed x ls).
Proof.
  intros Hs. destruct (fit_result_cases L n seed x ls) as [E|E]; [|exact E].
  rewrite E in Hs. discriminate.
Qed.

Lemma SelectorCV_for_inv (folds : list (list nat * list nat)) (n : Z) :
  forall (acc : Q) (m : pyobj) (self : ModelSelector),
  exists self' r,
    SelectorCV_for L folds n acc m self = (self', r)
    /\ same_setup self self'
    /\ X_from_fold folds self self'
    /\ forall acc' m', r = Return (acc', m') ->
         (folds = [] /\ m' = m)
         \/ exists model, m' = PyModel model /\ n_components model = n.
Proof.
  induction folds as [|[train test] rest IH]; intros acc m self.
  - exists self, (Return (acc, m)). split; [reflexivity|].
    split; [apply same_setup_refl|]. split; [left; now split|].
    intros acc' m' H. injection H as <- <-. now left.
  - rewrite SelectorCV_for_cons.
    destruct (combine_sequences train (sequences self)) as [xl|e] eqn:Ht.
    + cbn zeta.
      assert (HX1 : X_from_fold ((train, test) :: rest) self
                                (with_X_lengths self xl)).
      { right. exists train, test. split; [now left|].
        rewrite Ht. now destruct xl. }
      destruct (combine_sequences test (sequences self)) as [txl|e] eqn:Hte.
      * destruct (obj_score L (fit_result L n (random_state self) (fst xl) (snd xl))
                            (fst txl) (snd txl)) as [s|e] eqn:Hs.
        -- destruct (IH (acc + s)%Q
                        (fit_result L n (random_state self) (fst xl) (snd xl))
                        (with_X_lengths self xl))
             as (self' & r & Heq & Hsetup & HX & Hm).
           exists self', r. split; [exact Heq|]. split.
           { eapply same_setup_trans;
               [apply same_setup_with_X_lengths | exact Hsetup]. }
           split.
           { destruct HX as [[E1 E2]|(tr & te & HI & Hc)].
             - right. exists train, test. split; [now left|].
               rewrite Ht, E1, E2. now destruct xl.
             - right. exists tr, te. split; [now right | exact Hc]. }
           intros acc' m' Hr. right.
           destruct (Hm acc' m' Hr) as [[_ ->]|Hmodel]; [|exact Hmodel].
           eexists. split; [eapply scored_fit_result; exact Hs | reflexivity].
        -- exists (with_X_lengths self xl), (Raise e). split; [reflexivity|].
           split; [apply same_setup_with_X_lengths|]. split; [exact HX1|].
           discriminate.
      * exists (with_X_lengths self xl), (Raise e). split; [reflexivity|].
        split; [apply same_setup_with_X_lengths|]. split; [exact HX1|].
        discriminate.
    + exists self, (Raise e). split; [reflexivity|].
      split; [apply same_setup_refl|]. split; [left; now split|]. discriminate.
Qed.

(** One turn of the [while] loop. *)
Lemma SelectorCV_while_S (k fuel : nat) (n : Z) (ml : list (pyobj * Q))
  (self : ModelSelector) :
  SelectorCV_while L k (S fuel) n ml self
  = if (min_n_components self <=? n) && (n <=? max_n_components self) then
      match KFold_split k (List.length (sequences self)) with
      | Raise e => (self, Raise e)
      | Return folds =>
          match SelectorCV_for L folds n 0%Q PyNone self with
          | (self1, Raise e) => (self1, Raise e)
          | (self1, Return res) =>
              SelectorCV_while L k fuel (n + 1)
                (ml ++ [(snd res, (fst res / inject_Z (Z.of_nat k))%Q)]) self1
          end
      end
    else (self, Return ml).
Proof.
  cbn [SelectorCV_while]. unfold bind at 1, get_self at 1.
  destruct ((min_n_components self <=? n) && (n <=? max_n_components self));
    [|reflexivity].
  unfold bind at 1, lift at 1.
  destruct (KFold_split k (List.length (sequences self))) as [folds|e];
    [|reflexivity].
  unfold bind at 1.
  destruct (SelectorCV_for L folds n 0%Q PyNone self) as [self1 [[avg hmm]|e]];
    reflexivity.
Qed.

Lemma candidate_model_same_setup (s s' : ModelSelector) (o : pyobj) :
  same_setup s s' -> candidate_model s' o -> candidate_model s o.
Proof.
  unfold same_setup, candidate_model, in_range. intros H (m & -> & Hr).
  decompose [and] H. exists m. split; [reflexivity|]. lia.
Qed.

Lemma X_from_kfold_trans (s s1 s2 : ModelSelector) :
  same_setup s s1 -> X_from_kfold s s1 -> X_from_kfold s1 s2 ->
  X_from_kfold s s2.
Proof.
  intros Hs H1 [[E1 E2]|(folds & tr & te & Hk & HI & Hc)].
  - destruct H1 as [[E1' E2']|(folds & tr & te & Hk & HI & Hc)].
    + left. split; congruence.
    + right. exists folds, tr, te. rewrite E1, E2. now repeat split.
  - right. exists folds, tr, te.
    assert (Hseq : sequences s1 = sequences s) by apply Hs.
    rewrite Hseq in Hk, Hc. now repeat split.
Qed.

Lemma SelectorCV_while_inv (fuel : nat) :
  forall (n : Z) (ml : list (pyobj * Q)) (self : ModelSelector),
  exists self' r,
    SelectorCV_while L 3 fuel n ml self = (self', r)
    /\ same_setup self self'
    /\ X_from_kfold self self'
    /\ forall ml', r = Return ml' ->
         exists recorded,
           ml' = ml ++ recorded
           /\ Forall (fun e => candidate_model self (fst e)) recorded
           /\ (fuel <> 0%nat -> in_range self n -> recorded <> []).
Proof.
  induction fuel as [|fuel IH]; intros n ml self.
  - exists self, (Return ml). split; [reflexivity|].
    split; [apply same_setup_refl|]. split; [left; now split|].
    intros ml' H. injection H as <-. exists []. rewrite app_nil_r.
    split; [reflexivity|]. split; [constructor | congruence].
  - rewrite SelectorCV_while_S.
    destruct ((min_n_components self <=? n) && (n <=? max_n_components self))
      eqn:Hc.
    + apply andb_true_iff in Hc. destruct Hc as [H1 H2].
      apply Z.leb_le in H1. apply Z.leb_le in H2.
      destruct (KFold_split 3 (List.length (sequences self))) as [folds|e] eqn:Hk.
      * destruct (SelectorCV_for_inv folds n 0%Q PyNone self)
          as (self1 & r1 & Heq1 & Hs1 & HX1 & Hm1).
        assert (HXk : X_from_kfold self self1).
        { destruct HX1 as [HE|(tr & te & HI & Hcomb)]; [now left|].
          right. now exists folds, tr, te. }
        rewrite Heq1. destruct r1 as [[avg hmm]|e].
        -- destruct (IH (n + 1)
                        (ml ++ [(hmm, (avg / inject_Z (Z.of_nat 3))%Q)]) self1)
             as (self' & r & Heq & Hs & HX & Hrec).
           cbn [fst snd]. exists self', r. split; [exact Heq|].
           split; [eapply same_setup_trans; eauto|].
           split; [eapply X_from_kfold_trans; eauto|].
           intros ml' Hr. destruct (Hrec ml' Hr) as (rec & -> & Hall & _).
           exists ((hmm, (avg / inject_Z (Z.of_nat 3))%Q) :: rec).
           split; [now rewrite <- app_assoc|]. split; [|discriminate].
           constructor.
           ++ cbn [fst].
              destruct (Hm1 avg hmm eq_refl) as [[-> _]|(model & -> & Hn)].
              ** apply KFold_split_3 in Hk.
                 destruct Hk as (_ & f1 & f2 & f3 & Hf). discriminate.
              ** exists model. split; [reflexivity|]. unfold in_range. lia.
           ++ eapply Forall_impl; [|exact Hall].
              intros e. apply candidate_model_same_setup. exact Hs1.
        -- exists self1, (Raise e). split; [reflexivity|].
           split; [exact Hs1|]. split; [exact HXk|]. discriminate.
      * exists self, (Raise e). split; [reflexivity|].
        split; [apply same_setup_refl|]. split; [left; now split|]. discriminate.
    + exists self, (Return ml). split; [reflexivity|].
      split; [apply same_setup_refl|]. split; [left; now split|].
      intros ml' H. injection H as <-. exists []. rewrite app_nil_r.
      split; [reflexivity|]. split; [constructor|].
      intros _ [Hr1 Hr2]. apply andb_false_iff in Hc.
      destruct Hc as [Hc|Hc]; apply Z.leb_gt in Hc; lia.
Qed.

(** [SelectorCV.select] after its loop. *)
Lemma SelectorCV_select_eq (self : ModelSelector) :
  SelectorCV_select L self
  = match SelectorCV_while L 3 (range_size self) (min_n_components self) []
                           self with
    | (self', Return model_list) => (self', py_max Qgtb model_list)
    | (self', Raise _) =>
        (self', Return (fit_result L (n_constant self') (random_state self')
                                   (X self') (lengths self')))
    end.
Proof.
  unfold SelectorCV_select. unfold bind at 1, get_self at 1.
  unfold bind at 1, try_except at 1. unfold bind at 1.
  destruct (SelectorCV_while L 3 (range_size self) (min_n_components self) []
                             self) as [self' [ml|e]].
  - reflexivity.
  - unfold bind at 1, get_self at 1.
    erewrite bind_Return by apply base_model_eq. reflexivity.
Qed.

(** One fold that fits and scores. *)
Lemma SelectorCV_for_step (self0 self : ModelSelector) (n : Z)
  (f : list nat * list nat) (rest : list (list nat * list nat)) (acc : Q)
  (m0 : pyobj) (s : Q) :
  same_setup self0 self ->
  fold_score L self0 n f = Some s ->
  exists m xl,
    fold_fit L self0 n f = Some m
    /\ SelectorCV_for L (f :: rest) n acc m0 self
       = SelectorCV_for L rest n (acc + s)%Q (PyModel m)
                        (with_X_lengths self xl).
Proof.
  intros Hs Hscore. destruct f as [train test].
  assert (Hseq : sequences self = sequences self0) by apply Hs.
  assert (Hseed : random_state self = random_state self0) by apply Hs.
  rewrite SelectorCV_for_cons, Hseq, Hseed.
  unfold fold_score, fold_fit in *. cbn [fst snd] in *.
  destruct (combine_sequences train (sequences self0)) as [xl|e];
    [|discriminate].
  unfold fit_result.
  destruct (fit_converges L n (random_state self0) (fst xl) (snd xl));
    [|discriminate].
  destruct (combine_sequences test (sequences self0)) as [txl|e];
    [|discriminate].
  cbn zeta. simpl obj_score. rewrite Hscore.
  eexists _, xl. split; reflexivity.
Qed.

Lemma same_setup_step (self0 self : ModelSelector) (xl : list frame * list nat) :
  same_setup self0 self -> same_setup self0 (with_X_lengths self xl).
Proof.
  intros H. eapply same_setup_trans; [exact H|].
  apply same_setup_with_X_lengths.
Qed.

(** Three folds that fit and score. *)
Lemma SelectorCV_for_three (self0 self : ModelSelector) (n : Z)
  (f1 f2 f3 : list nat * list nat) (s1 s2 s3 : Q) :
  same_setup self0 self ->
  fold_score L self0 n f1 = Some s1 ->
  fold_score L self0 n f2 = Some s2 ->
  fold_score L self0 n f3 = Some s3 ->
  exists self' m,
    SelectorCV_for L [f1; f2; f3] n 0%Q PyNone self
    = (self', Return ((0 + s1 + s2 + s3)%Q, PyModel m))
    /\ same_setup self0 self'
    /\ fold_fit L self0 n f3 = Some m.
Proof.
  intros Hs H1 H2 H3.
  destruct (SelectorCV_for_step self0 self n f1 [f2; f3] 0%Q PyNone s1 Hs H1)
    as (m1 & xl1 & _ & ->).
  pose proof (same_setup_step _ _ xl1 Hs) as Hs1.
  destruct (SelectorCV_for_step self0 _ n f2 [f3] (0 + s1)%Q (PyModel m1) s2
                                Hs1 H2) as (m2 & xl2 & _ & ->).
  pose proof (same_setup_step _ _ xl2 Hs1) as Hs2.
  destruct (SelectorCV_for_step self0 _ n f3 [] (0 + s1 + s2)%Q (PyModel m2) s3
                                Hs2 H3) as (m3 & xl3 & Hfit & ->).
  pose proof (same_setup_step _ _ xl3 Hs2) as Hs3.
  eexists _, m3. split; [reflexivity|]. split; [exact Hs3 | exact Hfit].
Qed.

Lemma option_not_None {A : Type} (o : option A) :
  o <> None -> exists a, o = Some a.
Proof. destruct o; [now eexists | congruence]. Qed.

(** The loop when every fold of every candidate fits and scores. *)
Lemma SelectorCV_while_success (self0 : ModelSelector)
  (f1 f2 f3 : list nat * list nat) :
  KFold_split 3 (List.length (sequences self0)) = Return [f1; f2; f3] ->
  (forall n fold, in_range self0 n -> In fold [f1; f2; f3] ->
                  fold_score L self0 n fold <> None) ->
  forall (fuel : nat) (n : Z) (ml : list (pyobj * Q)) (self : ModelSelector),
    same_setup self0 self ->
    min_n_components self0 <= n ->
    exists self' recorded,
      SelectorCV_while L 3 fuel n ml self = (self', Return (ml ++ recorded))
      /\ same_setup self0 self'
      /\ (forall n', n <= n' < n + Z.of_nat fuel -> n' <= max_n_components self0 ->
            exists e, In e recorded /\ cv_recorded L self0 f1 f2 f3 n' e)
      /\ (forall e, In e recorded ->
            exists n', in_range self0 n' /\ cv_recorded L self0 f1 f2 f3 n' e).
Proof.
  intros Hk Hall. induction fuel as [|fuel IH]; intros n ml self Hs Hmin.
  - exists self, []. simpl. rewrite app_nil_r. split; [reflexivity|].
    split; [exact Hs|]. split; [intros n' Hn'; lia | intros e []].
  - rewrite SelectorCV_while_S.
    assert (Emin : min_n_components self = min_n_components self0) by apply Hs.
    assert (Emax : max_n_components self = max_n_components self0) by apply Hs.
    assert (Eseq : sequences self = sequences self0) by apply Hs.
    rewrite Emin, Emax, Eseq, Hk.
    destruct ((min_n_components self0 <=? n) && (n <=? max_n_components self0))
      eqn:Hc.
    + apply andb_true_iff in Hc. destruct Hc as [H1 H2].
      apply Z.leb_le in H1. apply Z.leb_le in H2.
      assert (Hr : in_range self0 n) by (unfold in_range; lia).
      destruct (option_not_None _ (Hall n f1 Hr (or_introl eq_refl))) as (s1 & Hs1).
      destruct (option_not_None _ (Hall n f2 Hr (or_intror (or_introl eq_refl))))
        as (s2 & Hs2).
      destruct (option_not_None _
                  (Hall n f3 Hr (or_intror (or_intror (or_introl eq_refl)))))
        as (s3 & Hs3).
      destruct (SelectorCV_for_three self0 self n f1 f2 f3 s1 s2 s3 Hs Hs1 Hs2 Hs3)
        as (self1 & m & -> & Hsetup1 & Hfit).
      cbn [fst snd].
      set (entry := (PyModel m, ((0 + s1 + s2 + s3) / inject_Z (Z.of_nat 3))%Q)).
      assert (Hentry : cv_recorded L self0 f1 f2 f3 n entry).
      { exists m, s1, s2, s3. repeat (split; [assumption || reflexivity|]).
        unfold entry. cbn [snd]. rewrite Qplus_0_l. reflexivity. }
      destruct (IH (n + 1) (ml ++ [entry]) self1 Hsetup1 ltac:(lia))
        as (self' & rec & Heq & Hsetup & Hin & Hout).
      exists self', (entry :: rec). split.
      * rewrite Heq. now rewrite <- app_assoc.
      * split; [exact Hsetup|]. split.
        -- intros n' Hn' Hmax. destruct (Z.eq_dec n' n) as [->|Hne].
           ++ exists entry. split; [now left | exact Hentry].
           ++ destruct (Hin n' ltac:(lia) Hmax) as (e & HI & He).
              exists e. split; [now right | exact He].
        -- intros e [<-|HI].
           ++ exists n. split; [exact Hr | exact Hentry].
           ++ now apply Hout.
    + exists self, []. rewrite app_nil_r. split; [reflexivity|].
      split; [exact Hs|]. split; [|intros e []].
      intros n' Hn' Hmax. apply andb_false_iff in Hc.
      destruct Hc as [Hc|Hc]; apply Z.leb_gt in Hc; lia.
Qed.

End CrossValidationFacts.

(** ** The loops end by their condition

    [range_size] turns are enough: with more fuel the three [while] loops
    give the same result, so no result depends on the bound. *)

Section LoopFacts.

Variable L : hmmlearn.

Lemma SelectorBIC_while_S (fuel : nat) (n : Z) (ml : list (pyobj * Q))
  (self : ModelSelector) :
  SelectorBIC_while L (S fuel) n ml self
  = if (min_n_components self <=? n) && (n <=? max_n_components self) then
      let hmm_model :=
        fit_result L n (random_state self) (X self) (lengths self) in
      SelectorBIC_while L fuel (n + 1)
        match obj_score L hmm_model (X self) (lengths self) with
        | Return test_score =>
            ml ++ [(hmm_model, scoreBIC L test_score n (List.length (X self)))]
        | Raise _ => ml
        end self
    else (self, Return ml).
Proof.
  cbn [SelectorBIC_while]. unfold bind at 1, get_self at 1.
  destruct ((min_n_components self <=? n) && (n <=? max_n_components self));
    [|reflexivity].
  erewrite bind_Return by apply base_model_eq.
  erewrite bind_Return by apply SelectorBIC_try_eq. reflexivity.
Qed.

Lemma SelectorDIC_while_S (fuel : nat) (n : Z) (ml : list (pyobj * Q))
  (self : ModelSelector) :
  SelectorDIC_while L (S fuel) n ml self
  = if (min_n_components self <=? n) && (n <=? max_n_components self) then
      let hmm_model :=
        fit_result L n (random_state self) (X self) (lengths self) in
      SelectorDIC_while L fuel (n + 1)
        match obj_score L hmm_model (X self) (lengths self) with
        | Return this_word_score =>
            match snd (calculate_avgscore_otherwords L (this_word self)
                                                     (PyInt n) self) with
            | Return otherwords_avgscore =>
                ml ++ [(hmm_model, (this_word_score - otherwords_avgscore)%Q)]
            | Raise _ => ml
            end
        | Raise _ => ml
        end self
    else (self, Return ml).
Proof.
  cbn [SelectorDIC_while]. unfold bind at 1, get_self at 1.
  destruct ((min_n_components self <=? n) && (n <=? max_n_components self));
    [|reflexivity].
  erewrite bind_Return by apply base_model_eq.
  erewrite bind_Return by apply SelectorDIC_try_eq. reflexivity.
Qed.

Lemma range_condition_false (self : ModelSelector) (n : Z) :
  max_n_components self + 1 - n <= 0 ->
  (min_n_components self <=? n) && (n <=? max_n_components self) = false.
Proof.
  intros H. apply andb_false_iff. right. apply Z.leb_gt. lia.
Qed.

Lemma SelectorBIC_while_more_fuel (fuel : nat) :
  forall (n : Z) (ml : list (pyobj * Q)) (self : ModelSelector),
    max_n_components self + 1 - n <= Z.of_nat fuel ->
    SelectorBIC_while L (S fuel) n ml self = SelectorBIC_while L fuel n ml self.
Proof.
  induction fuel as [|fuel IH]; intros n ml self Hn.
  - rewrite SelectorBIC_while_S, range_condition_false by (simpl in Hn; lia).
    reflexivity.
  - rewrite (SelectorBIC_while_S (S fuel) n ml self), (SelectorBIC_while_S fuel n ml self).
    destruct ((min_n_components self <=? n) && (n <=? max_n_components self));
      [|reflexivity].
    cbn zeta. apply IH. lia.
Qed.

Lemma SelectorDIC_while_more_fuel (fuel : nat) :
  forall (n : Z) (ml : list (pyobj * Q)) (self : ModelSelector),
    max_n_components self + 1 - n <= Z.of_nat fuel ->
    SelectorDIC_while L (S fuel) n ml self = SelectorDIC_while L fuel n ml self.
Proof.
  induction fuel as [|fuel IH]; intros n ml self Hn.
  - rewrite SelectorDIC_while_S, range_condition_false by (simpl in Hn; lia).
    reflexivity.
  - rewrite (SelectorDIC_while_S (S fuel) n ml self), (SelectorDIC_while_S fuel n ml self).
    destruct ((min_n_components self <=? n) && (n <=? max_n_components self));
      [|reflexivity].
    cbn zeta. apply IH. lia.
Qed.

Lemma SelectorCV_while_more_fuel (fuel : nat) :
  forall (n : Z) (ml : list (pyobj * Q)) (self : ModelSelector),
    max_n_components self + 1 - n <= Z.of_nat fuel ->
    SelectorCV_while L 3 (S fuel) n ml self = SelectorCV_while L 3 fuel n ml self.
Proof.
  induction fuel as [|fuel IH]; intros n ml self Hn.
  - rewrite SelectorCV_while_S, range_condition_false by (simpl in Hn; lia).
    reflexivity.
  - rewrite (SelectorCV_while_S L 3 (S fuel) n ml self), (SelectorCV_while_S L 3 fuel n ml self).
    destruct ((min_n_components self <=? n) && (n <=? max_n_components self));
      [|reflexivity].
    destruct (KFold_split 3 (List.length (sequences self))) as [folds|e];
      [|reflexivity].
    destruct (SelectorCV_for_inv L folds n 0%Q PyNone self)
      as (self1 & r & -> & Hs & _).
    destruct r as [res|e]; [|reflexivity].
    apply IH.
    assert (E : max_n_components self1 = max_n_components self) by apply Hs.
    rewrite E. lia.
Qed.

(** The bound of the three [select] methods is enough for the whole range. *)
Lemma range_size_enough (self : ModelSelector) :
  max_n_components self + 1 - min_n_components self
  <= Z.of_nat (range_size self).
Proof. unfold range_size. lia. Qed.

Lemma SelectorBIC_while_any_fuel (extra : nat) (self : ModelSelector) :
  SelectorBIC_while L (range_size self + extra) (min_n_components self) [] self
  = SelectorBIC_while L (range_size self) (min_n_components self) [] self.
Proof.
  induction extra as [|extra IH].
  - now rewrite Nat.add_0_r.
  - rewrite Nat.add_succ_r, SelectorBIC_while_more_fuel; [exact IH|].
    pose proof (range_size_enough self). lia.
Qed.

Lemma SelectorDIC_while_any_fuel (extra : nat) (self : ModelSelector) :
  SelectorDIC_while L (range_size self + extra) (min_n_components self) [] self
  = SelectorDIC_while L (range_size self) (min_n_components self) [] self.
Proof.
  induction extra as [|extra IH].
  - now rewrite Nat.add_0_r.
  - rewrite Nat.add_succ_r, SelectorDIC_while_more_fuel; [exact IH|].
    pose proof (range_size_enough self). lia.
Qed.

Lemma SelectorCV_while_any_fuel (extra : nat) (self : ModelSelector) :
  SelectorCV_while L 3 (range_size self + extra) (min_n_components self) [] self
  = SelectorCV_while L 3 (range_size self) (min_n_components self) [] self.
Proof.
  induction extra as [|extra IH].
  - now rewrite Nat.add_0_r.
  - rewrite Nat.add_succ_r, SelectorCV_while_more_fuel; [exact IH|].
    pose proof (range_size_enough self). lia.
Qed.

(** ** The keys of [model_list]

    [model_list[hmm_model] = score] is modelled as adding an entry at the
    end.  That is what the dict does: the keys recorded by a loop are models
    of strictly increasing state counts, so no key is ever assigned twice. *)

Lemma fresh_keys_nil (n : Z) : fresh_keys n [].
Proof. split; constructor. Qed.

Lemma fresh_keys_cons (n : Z) (m : GaussianHMM) (v : Q)
  (recorded : list (pyobj * Q)) :
  n_components m = n -> fresh_keys (n + 1) recorded ->
  fresh_keys n ((PyModel m, v) :: recorded).
Proof.
  intros Hn [Hall Hnd]. split.
  - constructor.
    + exists m. split; [reflexivity | lia].
    + eapply Forall_impl; [|exact Hall].
      intros e (m' & E & Hle). exists m'. split; [exact E | lia].
  - simpl. constructor; [|exact Hnd].
    intros HI. apply in_map_iff in HI. destruct HI as (e & E & HI).
    rewrite Forall_forall in Hall. destruct (Hall e HI) as (m' & E' & Hle).
    rewrite E' in E. injection E as ->. lia.
Qed.

Lemma SelectorBIC_while_fresh_keys (fuel : nat) :
  forall (n : Z) (ml : list (pyobj * Q)) (self : ModelSelector),
  exists recorded,
    SelectorBIC_while L fuel n ml self = (self, Return (ml ++ recorded))
    /\ fresh_keys n recorded.
Proof.
  induction fuel as [|fuel IH]; intros n ml self.
  - exists []. simpl. rewrite app_nil_r. split; [reflexivity|].
    apply fresh_keys_nil.
  - rewrite SelectorBIC_while_S.
    destruct ((min_n_components self <=? n) && (n <=? max_n_components self)).
    + cbn zeta.
      destruct (obj_score L (fit_result L n (random_state self) (X self)
                                        (lengths self)) (X self) (lengths self))
        as [s|e] eqn:Hs.
      * destruct (obj_score_fit_result L n self s Hs) as [-> _].
        destruct (IH (n + 1)
                     (ml ++ [(PyModel (own_model self n),
                              scoreBIC L s n (List.length (X self)))]) self)
          as (rec & -> & Hfresh).
        eexists (_ :: rec). split; [now rewrite <- app_assoc|].
        now apply fresh_keys_cons.
      * destruct (IH (n + 1) ml self) as (rec & -> & [Hall Hnd]).
        exists rec. split; [reflexivity|]. split; [|exact Hnd].
        eapply Forall_impl; [|exact Hall].
        intros e' (m' & E & Hle). exists m'. split; [exact E | lia].
    + exists []. rewrite app_nil_r. split; [reflexivity|].
      apply fresh_keys_nil.
Qed.

Lemma SelectorDIC_while_fresh_keys (fuel : nat) :
  forall (n : Z) (ml : list (pyobj * Q)) (self : ModelSelector),
  exists recorded,
    SelectorDIC_while L fuel n ml self = (self, Return (ml ++ recorded))
    /\ fresh_keys n recorded.
Proof.
  assert (Hweak : forall n rec, fresh_keys (n + 1) rec -> fresh_keys n rec).
  { intros n rec [Hall Hnd]. split; [|exact Hnd].
    eapply Forall_impl; [|exact Hall].
    intros e' (m' & E & Hle). exists m'. split; [exact E | lia]. }
  induction fuel as [|fuel IH]; intros n ml self.
  - exists []. simpl. rewrite app_nil_r. split; [reflexivity|].
    apply fresh_keys_nil.
  - rewrite SelectorDIC_while_S.
    destruct ((min_n_components self <=? n) && (n <=? max_n_components self)).
    + cbn zeta.
      destruct (obj_score L (fit_result L n (random_state self) (X self)
                                        (lengths self)) (X self) (lengths self))
        as [s|e] eqn:Hs.
      * destruct (obj_score_fit_result L n self s Hs) as [-> _].
        destruct (snd (calculate_avgscore_otherwords L (this_word self)
                                                     (PyInt n) self))
          as [avg|e].
        -- destruct (IH (n + 1)
                        (ml ++ [(PyModel (own_model self n), (s - avg)%Q)]) self)
             as (rec & -> & Hfresh).
           eexists (_ :: rec). split; [now rewrite <- app_assoc|].
           now apply fresh_keys_cons.
        -- destruct (IH (n + 1) ml self) as (rec & -> & Hfresh).
           exists rec. split; [reflexivity | now apply Hweak].
      * destruct (IH (n + 1) ml self) as (rec & -> & Hfresh).
        exists rec. split; [reflexivity | now apply Hweak].
    + exists []. rewrite app_nil_r. split; [reflexivity|].
      apply fresh_keys_nil.
Qed.

Lemma SelectorCV_while_fresh_keys (fuel : nat) :
  forall (n : Z) (ml : list (pyobj * Q)) (self self' : ModelSelector)
         (ml' : list (pyobj * Q)),
    SelectorCV_while L 3 fuel n ml self = (self', Return ml') ->
    exists recorded, ml' = ml ++ recorded /\ fresh_keys n recorded.
Proof.
  induction fuel as [|fuel IH]; intros n ml self self' ml'.
  - simpl. intros H. injection H as _ <-. exists []. rewrite app_nil_r.
    split; [reflexivity | apply fresh_keys_nil].
  - rewrite SelectorCV_while_S.
    destruct ((min_n_components self <=? n) && (n <=? max_n_components self)).
    + destruct (KFold_split 3 (List.length (sequences self))) as [folds|e] eqn:Hk;
        [|discriminate].
      destruct (SelectorCV_for_inv L folds n 0%Q PyNone self)
        as (self1 & r & -> & _ & _ & Hm).
      destruct r as [[avg hmm]|e]; [|discriminate].
      cbn [fst snd]. intros H.
      destruct (IH _ _ _ _ _ H) as (rec & -> & Hfresh).
      destruct (Hm avg hmm eq_refl) as [[Hnil _]|(model & -> & Hn)].
      * apply KFold_split_3 in Hk. destruct Hk as (_ & f1 & f2 & f3 & Hf).
        congruence.
      * eexists (_ :: rec). split; [now rewrite <- app_assoc|].
        now apply fresh_keys_cons.
    + intros H. injection H as _ <-. exists []. rewrite app_nil_r.
      split; [reflexivity | apply fresh_keys_nil].
Qed.

End LoopFacts.

(** ** The selectors: what [select] returns *)

Lemma fit_result_model (L : hmmlearn) (n seed : Z) (x : list frame)
  (ls : list nat) (m : GaussianHMM) :
  fit_result L n seed x ls = PyModel m -> n_components m = n.
Proof.
  intros H. destruct (fit_result_cases L n seed x ls) as [E|E];
    rewrite E in H; [discriminate|]. now injection H as <-.
Qed.


Lemma recorded_key_candidate (self : ModelSelector)
  (recorded : list (pyobj * Q)) (k : pyobj) (v : Q) :
  Forall (fun e => candidate_model self (fst e)) recorded ->
  first_max Qle Qlt recorded k v -> candidate_model self k.
Proof.
  intros Hall Hf. apply first_max_in in Hf.
  rewrite Forall_forall in Hall. exact (Hall (k, v) Hf).
Qed.

(** C9: whenever [select] returns a model, for each of the four selectors,
    the model's state count lies in [min_n_components, max_n_components] or
    equals [n_constant]. *)
Theorem select_state_count (L : hmmlearn) (k : selector_kind)
  (self self' : ModelSelector) (m : GaussianHMM) :
  select L k self = (self', Return (PyModel m)) ->
  in_range self (n_components m) \/ n_components m = n_constant self.
Proof.
  destruct k; cbn [select].
  - rewrite SelectorConstant_select_eq. intros H. injection H as _ H.
    right. eapply fit_result_model; eauto.
  - destruct (SelectorBIC_select_eq L self) as (rec & _ & Hall & ->).
    apply (Forall_impl _ (bic_recorded_candidate L self)) in Hall.
    intros H. injection H as _ H.
    destruct (fallback_or_max_cases L self rec) as [[_ E]|(key & v & E & Hf)];
      rewrite E in H; injection H as H.
    + right. eapply fit_result_model; eauto.
    + left. subst key.
      destruct (recorded_key_candidate _ _ _ _ Hall Hf) as (m' & E' & Hr).
      now injection E' as ->.
  - destruct (SelectorDIC_select_eq L self) as (rec & _ & Hall & ->).
    apply (Forall_impl _ (dic_recorded_candidate L self)) in Hall.
    intros H. injection H as _ H.
    destruct (fallback_or_max_cases L self rec) as [[_ E]|(key & v & E & Hf)];
      rewrite E in H; injection H as H.
    + right. eapply fit_result_model; eauto.
    + left. subst key.
      destruct (recorded_key_candidate _ _ _ _ Hall Hf) as (m' & E' & Hr).
      now injection E' as ->.
  - rewrite SelectorCV_select_eq.
    destruct (SelectorCV_while_inv L (range_size self) (min_n_components self)
                                   [] self) as (s1 & r & -> & Hs & _ & Hrec).
    destruct r as [ml|e]; intros H; injection H as <- H.
    + destruct (Hrec ml eq_refl) as (rec & -> & Hall & _). simpl in H.
      destruct rec as [|x rest]; [discriminate|].
      destruct (py_max_Q (x :: rest)) as (key & v & E & Hf); [discriminate|].
      rewrite E in H. injection H as ->. left.
      destruct (recorded_key_candidate _ _ _ _ Hall Hf) as (m' & E' & Hr).
      now injection E' as ->.
    + right. apply fit_result_model in H. rewrite H. apply Hs.
Qed.

Lemma select_state_count_witness :
  in_range (up_selector 3 2 3) (n_components (up_model 2))
  \/ n_components (up_model 2) = n_constant (up_selector 3 2 3).
Proof.
  apply (select_state_count lib_bic BIC (up_selector 3 2 3) (up_selector 3 2 3)
           (up_model 2)).
  reflexivity.
Defined.




(** C6, as stated, fails: with two training sequences and an empty candidate
    range the loop of [SelectorCV.select] is never entered, nothing is
    recorded and [max] raises, while the Constant selector returns a model. *)
Lemma SelectorCV_select_empty_range_raises :
  SelectorCV_select lib_ok (down_selector 3 3 2)
  = (down_selector 3 3 2, Raise ValueError)
  /\ SelectorConstant_select lib_ok (down_selector 3 3 2)
     = (down_selector 3 3 2,
        Return (PyModel (mkHMM 3 14 (fst (concat_form down_sequences))
                               (snd (concat_form down_sequences))))).
Proof. split; reflexivity. Qed.

(** C6 (amended): for every word whose training sequence count is less than
    k = 3, and a non-empty candidate range, [SelectorCV.select] returns
    exactly the Constant selector's result (a model fit with the fallback
    state count on the word's whole data, or its failure), and leaves the
    selector as the Constant selector does. *)
Theorem SelectorCV_select_few_sequences (L : hmmlearn) (self : ModelSelector) :
  (List.length (sequences self) < 3)%nat ->
  min_n_components self <= max_n_components self ->
  SelectorCV_select L self = SelectorConstant_select L self.
Proof.
  intros Hfew Hrange.
  rewrite SelectorCV_select_eq, SelectorConstant_select_eq.
  unfold range_size.
  destruct (Z.to_nat (max_n_components self + 1 - min_n_components self))
    as [|fuel] eqn:Hfuel; [lia|].
  rewrite SelectorCV_while_S.
  replace ((min_n_components self <=? min_n_components self)
           && (min_n_components self <=? max_n_components self)) with true.
  - rewrite KFold_split_few by exact Hfew. reflexivity.
  - symmetry. apply andb_true_iff. split; apply Z.leb_le; lia.
Qed.

Lemma SelectorCV_select_few_sequences_witness :
  SelectorCV_select lib_ok (down_selector 3 2 4)
  = SelectorConstant_select lib_ok (down_selector 3 2 4).
Proof.
  apply (SelectorCV_select_few_sequences lib_ok (down_selector 3 2 4)).
  - simpl. lia.
  - simpl. lia.
Defined.

(** ** The selector's concatenated form *)





(** ** The criteria *)

(** What [SelectorBIC.select] returns in general: the fallback fit when no
    candidate was recorded, otherwise the first recorded model of greatest
    BIC. *)
Lemma SelectorBIC_select_greatest_BIC (L : hmmlearn) (self : ModelSelector) :
  exists recorded,
    SelectorBIC_while L (range_size self) (min_n_components self) [] self
    = (self, Return recorded)
    /\ Forall (bic_recorded L self) recorded
    /\ ((recorded = []
         /\ SelectorBIC_select L self = SelectorConstant_select L self)
        \/ exists best bic,
             SelectorBIC_select L self = (self, Return best)
             /\ first_max Qle Qlt recorded best bic).
Proof.
  destruct (SelectorBIC_select_eq L self) as (rec & Hw & Hall & ->).
  exists rec. split; [exact Hw|]. split; [exact Hall|].
  destruct (fallback_or_max_cases L self rec) as [[-> E]|(k & v & E & Hf)].
  - left. split; [reflexivity|]. now rewrite SelectorConstant_select_eq, E.
  - right. exists k, v. rewrite E. now split.
Qed.

(** C1: on the word "UP" with the candidates 2 and 3, both fit and scored,
    the candidate of 3 states has the lower BIC, and [SelectorBIC.select]
    returns the candidate of 2 states: the stored score is the BIC itself
    and [max] picks the highest. *)
Theorem SelectorBIC_select_returns_highest_BIC :
  exists bic2 bic3,
    SelectorBIC_while lib_bic (range_size (up_selector 3 2 3)) 2 []
                      (up_selector 3 2 3)
    = (up_selector 3 2 3,
       Return [(PyModel (up_model 2), bic2); (PyModel (up_model 3), bic3)])
    /\ bic2 = scoreBIC lib_bic (-10 # 1) 2 5
    /\ bic3 = scoreBIC lib_bic (-9 # 1) 3 5
    /\ (bic3 < bic2)%Q
    /\ SelectorBIC_select lib_bic (up_selector 3 2 3)
       = (up_selector 3 2 3, Return (PyModel (up_model 2))).
Proof.
  exists (scoreBIC lib_bic (-10 # 1) 2 5), (scoreBIC lib_bic (-9 # 1) 3 5).
  split; [vm_compute; reflexivity|]. split; [reflexivity|].
  split; [reflexivity|]. split; [|vm_compute; reflexivity].
  vm_compute. reflexivity.
Qed.

(** C2: on the word "UP" with the single candidate 2, the fitted model
    scores -5 on the word's own data and -20 on the other word's data, so
    the score the claim describes is 15; [SelectorDIC.select] records -5,
    because it hands the state count, not the model, to
    [calculate_avgscore_otherwords], whose every score then fails. *)
Theorem SelectorDIC_select_records_own_score :
  exists recorded_score avg_of_model,
    SelectorDIC_while lib_dic (range_size (up_selector 3 2 2)) 2 []
                      (up_selector 3 2 2)
    = (up_selector 3 2 2, Return [(PyModel (up_model 2), recorded_score)])
    /\ obj_score lib_dic (PyModel (up_model 2)) (X (up_selector 3 2 2))
                 (lengths (up_selector 3 2 2)) = Return (-5 # 1)
    /\ calculate_avgscore_otherwords lib_dic "UP"%string (PyModel (up_model 2))
                                     (up_selector 3 2 2)
       = (up_selector 3 2 2, Return avg_of_model)
    /\ (avg_of_model == -20 # 1)%Q
    /\ (recorded_score == -5 # 1)%Q
    /\ ~ (recorded_score == (-5 # 1) - avg_of_model)%Q.
Proof.
  exists ((-5 # 1) - 0)%Q, ((0 + (-20 # 1)) / inject_Z 1)%Q.
  split; [vm_compute; reflexivity|]. split; [vm_compute; reflexivity|].
  split; [vm_compute; reflexivity|]. split; [vm_compute; reflexivity|].
  split; [vm_compute; reflexivity|].
  vm_compute. discriminate.
Qed.

(** ** Cross-validation *)

(** C8: on the word "UP" (three sequences) with the candidates 2 and 3, the
    three folds of the candidate 2 all fit and score and its turn of the
    loop records it, with the sum of the three held-out scores divided by
    three and the model of the final fold; the claim has [select] return
    that recorded model.  The first fit of the candidate 3 fails:
    [None.score] raises into the handler around the whole loop, and
    [select] returns the model of the fallback state count 5, fit on the
    training partition of the fold that failed.  On the same input the BIC
    and DIC selectors skip the failing candidate and return the model of 2
    states. *)
Theorem SelectorCV_select_abandons_recorded :
  in_range (up_selector 5 2 3) 2
  /\ Forall (fun fold => fold_score lib_no3 (up_selector 5 2 3) 2 fold <> None)
            (cv_folds (up_selector 5 2 3))
  /\ snd (SelectorCV_while lib_no3 3 1 2 [] (up_selector 5 2 3))
     = Return [(PyModel (mkHMM 2 14 [fr 1; fr 2; fr 3; fr 4] [2%nat; 2%nat]),
                ((0 + (-1 # 1) + (-1 # 1) + (-1 # 1)) / 3)%Q)]
  /\ snd (SelectorCV_while lib_no3 3 (range_size (up_selector 5 2 3)) 2 []
                           (up_selector 5 2 3)) = Raise AttributeError
  /\ snd (SelectorCV_select lib_no3 (up_selector 5 2 3))
     = Return (PyModel (mkHMM 5 14 [fr 3; fr 4; fr 5] [2%nat; 1%nat]))
  /\ snd (SelectorBIC_select lib_no3 (up_selector 5 2 3))
     = Return (PyModel (up_model 2))
  /\ snd (SelectorDIC_select lib_no3 (up_selector 5 2 3))
     = Return (PyModel (up_model 2)).
Proof.
  split; [unfold in_range; simpl; lia|].
  split; [vm_compute; repeat constructor; discriminate|].
  repeat split; vm_compute; reflexivity.
Qed.

(** X16: for every word with at least k = 3 training sequences and a
    non-empty candidate range, when the k folds of every candidate state
    count fit and score, the loop of [SelectorCV.select] records for every
    candidate n the model fit on the final fold's training partition with
    the sum of the k held-out fold log-likelihoods divided by k, it records
    nothing else, and [select] returns the recorded model with the maximum
    CV score (the first such model). *)
Theorem SelectorCV_select_all_folds_succeed (L : hmmlearn)
  (self : ModelSelector) :
  (3 <= List.length (sequences self))%nat ->
  min_n_components self <= max_n_components self ->
  (forall n fold, in_range self n -> In fold (cv_folds self) ->
                  fold_score L self n fold <> None) ->
  exists f1 f2 f3 self' recorded best score,
    cv_folds self = [f1; f2; f3]
    /\ SelectorCV_while L 3 (range_size self) (min_n_components self) [] self
       = (self', Return recorded)
    /\ (forall n, in_range self n ->
          exists e, In e recorded /\ cv_recorded L self f1 f2 f3 n e)
    /\ (forall e, In e recorded ->
          exists n, in_range self n /\ cv_recorded L self f1 f2 f3 n e)
    /\ SelectorCV_select L self = (self', Return best)
    /\ first_max Qle Qlt recorded best score.
Proof.
  intros Hlen Hrange Hall.
  destruct (KFold_split 3 (List.length (sequences self))) as [folds|e] eqn:Hk.
  2:{ unfold KFold_split in Hk. apply Nat.ltb_ge in Hlen. rewrite Hlen in Hk.
      discriminate. }
  destruct (KFold_split_3 _ _ Hk) as (_ & f1 & f2 & f3 & ->).
  assert (Hfolds : cv_folds self = [f1; f2; f3]).
  { unfold cv_folds. now rewrite Hk. }
  rewrite Hfolds in Hall.
  destruct (SelectorCV_while_success L self f1 f2 f3 Hk Hall (range_size self)
              (min_n_components self) [] self (same_setup_refl self)
              (Z.le_refl _)) as (self' & rec & Hw & _ & Hin & Hout).
  simpl in Hw.
  assert (Hne : rec <> []).
  { destruct (Hin (min_n_components self)) as (e & HI & _).
    - unfold range_size. lia.
    - exact Hrange.
    - intros ->. contradiction. }
  destruct (py_max_Q rec Hne) as (best & v & Hbest & Hfirst).
  exists f1, f2, f3, self', rec, best, v.
  split; [exact Hfolds|]. split; [exact Hw|]. split.
  { intros n [Hn1 Hn2]. apply Hin; [unfold range_size; lia | exact Hn2]. }
  split; [exact Hout|]. split; [|exact Hfirst].
  rewrite SelectorCV_select_eq, Hw. now rewrite Hbest.
Qed.

Lemma SelectorCV_select_all_folds_succeed_witness :
  exists f1 f2 f3 self' recorded best score,
    cv_folds (up_selector 3 2 3) = [f1; f2; f3]
    /\ SelectorCV_while lib_ok 3 (range_size (up_selector 3 2 3)) 2 []
                        (up_selector 3 2 3)
       = (self', Return recorded)
    /\ (forall n, in_range (up_selector 3 2 3) n ->
          exists e, In e recorded
                    /\ cv_recorded lib_ok (up_selector 3 2 3) f1 f2 f3 n e)
    /\ (forall e, In e recorded ->
          exists n, in_range (up_selector 3 2 3) n
                    /\ cv_recorded lib_ok (up_selector 3 2 3) f1 f2 f3 n e)
    /\ SelectorCV_select lib_ok (up_selector 3 2 3) = (self', Return best)
    /\ first_max Qle Qlt recorded best score.
Proof.
  apply (SelectorCV_select_all_folds_succeed lib_ok (up_selector 3 2 3)).
  - simpl. lia.
  - simpl. lia.
  - intros n fold _ HI. vm_compute in HI.
    destruct HI as [<-|[<-|[<-|[]]]]; vm_compute; discriminate.
Defined.

(** ** More on the recognizer *)

Section RecognizerMore.

Variable L : hmmlearn.

(** The loop over the ids of a suffix of the test set is the recognition of
    that suffix, added to what was collected before. *)
Lemma recognize_for_suffix (models : list (word * pyobj)) :
  forall (rest pre : SinglesData) probabilities guesses,
    recognize_for L (seq (List.length pre) (List.length rest)) models
                  (pre ++ rest) probabilities guesses
    = match recognize L models rest with
      | Return (p, g) => Return (probabilities ++ p, guesses ++ g)
      | Raise e => Raise e
      end.
Proof.
  induction rest as [|item rest IH]; intros pre probs guesses.
  - simpl. now rewrite !app_nil_r.
  - unfold recognize. rewrite get_all_Xlengths_length.
    cbn [List.length seq recognize_for].
    rewrite get_item_Xlengths_middle.
    change (get_item_Xlengths (item :: rest) 0) with (Return (A := list frame * list nat) item).
    destruct item as [cx cl]. cbn zeta.
    destruct (py_max pyfloat_gtb (recognize_scores L models cx cl []))
      as [g|e]; [|reflexivity].
    pose proof (IH (pre ++ [(cx, cl)])
                   (probs ++ [recognize_scores L models cx cl []])
                   (guesses ++ [g])) as H1.
    rewrite length_app, Nat.add_1_r, <- app_assoc in H1. simpl in H1.
    rewrite H1.
    pose proof (IH [(cx, cl)] ([] ++ [recognize_scores L models cx cl []])
                   ([] ++ [g])) as H2.
    cbn [List.length app] in H2. cbn [app]. rewrite H2.
    destruct (recognize L models rest) as [[p gs]|e]; [|reflexivity].
    now rewrite <- !app_assoc.
Qed.

(** X13: [recognize] is a map over the test items with nothing carried from
    one item to the next: the result on a concatenated test set is the
    concatenation of the results on its two parts, and the first failure, if
    any, is the failure of the whole. *)
Theorem recognize_app (models : list (word * pyobj)) (ts1 ts2 : SinglesData) :
  recognize L models (ts1 ++ ts2)
  = match recognize L models ts1 with
    | Raise e => Raise e
    | Return (p1, g1) =>
        match recognize L models ts2 with
        | Raise e => Raise e
        | Return (p2, g2) => Return (p1 ++ p2, g1 ++ g2)
        end
    end.
Proof.
  revert ts2. induction ts1 as [|item ts1 IH]; intros ts2.
  - simpl app. change (recognize L models []) with
      (Return (A := list (list (word * pyfloat)) * list word) ([], [])).
    destruct (recognize L models ts2) as [[p2 g2]|e]; reflexivity.
  - assert (Hcons : forall ts,
              recognize L models (item :: ts)
              = match py_max pyfloat_gtb
                        (recognize_scores L models (fst item) (snd item) []) with
                | Raise e => Raise e
                | Return g =>
                    match recognize L models ts with
                    | Return (p, gs) =>
                        Return (recognize_scores L models (fst item) (snd item) []
                                  :: p, g :: gs)
                    | Raise e => Raise e
                    end
                end).
    { intros ts. unfold recognize at 1. rewrite get_all_Xlengths_length.
      cbn [List.length seq recognize_for].
      change (get_item_Xlengths (item :: ts) 0)
        with (Return (A := list frame * list nat) item).
      destruct item as [cx cl]. cbn [fst snd]. cbn zeta.
      destruct (py_max pyfloat_gtb (recognize_scores L models cx cl []))
        as [g|e]; [|reflexivity].
      pose proof (recognize_for_suffix models ts [(cx, cl)]
                    ([] ++ [recognize_scores L models cx cl []]) ([] ++ [g]))
        as H2.
      cbn [List.length app] in H2. cbn [app]. rewrite H2.
      destruct (recognize L models ts) as [[p gs]|e]; reflexivity. }
    simpl app. rewrite (Hcons (ts1 ++ ts2)), (Hcons ts1), IH.
    destruct (py_max pyfloat_gtb
                (recognize_scores L models (fst item) (snd item) []))
      as [g|e]; [|reflexivity].
    destruct (recognize L models ts1) as [[p1 g1]|e]; [|reflexivity].
    destruct (recognize L models ts2) as [[p2 g2]|e]; reflexivity.
Qed.

Lemma max_from_all_NegInf {K : Type} (best : K * pyfloat)
  (l : list (K * pyfloat)) :
  (forall e, In e l -> snd e = NegInf) -> max_from pyfloat_gtb best l = best.
Proof.
  revert best. induction l as [|x rest IH]; intros best Hall; [reflexivity|].
  simpl. rewrite (Hall x (or_introl eq_refl)). simpl.
  apply IH. intros e HI. apply Hall. now right.
Qed.

(** X14: when some word's model scores a test item, the guess for the item
    is a word whose model scored it too, with a score at least as high: a
    word whose scoring failed is never guessed in place of one that scored. *)
Theorem recognize_guess_scored (models : list (word * pyobj))
  (test_set : SinglesData) (i : nat) (item : list frame * list nat)
  (w : word) (model : pyobj) (s : Q) :
  dict_wf models ->
  nth_error test_set i = Some item ->
  In (w, model) models ->
  obj_score L model (fst item) (snd item) = Return s ->
  exists probabilities guesses g model_g q,
    recognize L models test_set = Return (probabilities, guesses)
    /\ nth_error guesses i = Some g
    /\ In (g, model_g) models
    /\ obj_score L model_g (fst item) (snd item) = Return q
    /\ (s <= q)%Q.
Proof.
  intros Hwf Hi HI Hs.
  assert (Hne : models <> []) by (intros ->; contradiction).
  destruct (recognize_spec L models test_set Hne Hwf) as (gs & Hrec & Hall).
  destruct (Forall2_nth_error _ _ _ _ _ Hall Hi) as (g & Hg & Hguess).
  destruct (py_max_pyfloat (score_map L models item)) as (k & v & Hk & Hfirst).
  { now apply score_map_nonempty. }
  unfold guess_of in Hguess. rewrite Hk in Hguess. injection Hguess as ->.
  pose proof (first_max_in _ _ _ _ _ Hfirst) as Hin.
  destruct Hfirst as [_ Hupper].
  assert (Hle : pyfloat_le (Finite s) v).
  { apply (Hupper (w, Finite s)). unfold score_map.
    apply in_map_iff. exists (w, model). split; [|exact HI].
    cbn [fst snd]. unfold recorded_score. now rewrite Hs. }
  unfold score_map in Hin. apply in_map_iff in Hin.
  destruct Hin as ([g' model_g] & E & HIg). cbn [fst snd] in E.
  injection E as -> <-.
  unfold recorded_score in Hle.
  destruct (obj_score L model_g (fst item) (snd item)) as [q|e] eqn:Hq;
    [|contradiction].
  exists (map (score_map L models) test_set), gs, g, model_g, q.
  repeat split; assumption.
Qed.

(** X15: when no model of the mapping can score a test item, every recorded
    score is negative infinity and the guess is the first word of the
    mapping. *)
Theorem recognize_all_fail_first_word (w0 : word) (m0 : pyobj)
  (rest : list (word * pyobj)) (test_set : SinglesData) (i : nat)
  (item : list frame * list nat) :
  dict_wf ((w0, m0) :: rest) ->
  nth_error test_set i = Some item ->
  (forall w m, In (w, m) ((w0, m0) :: rest) ->
               exists e, obj_score L m (fst item) (snd item) = Raise e) ->
  exists probabilities guesses,
    recognize L ((w0, m0) :: rest) test_set = Return (probabilities, guesses)
    /\ nth_error probabilities i
       = Some (map (fun wm => (fst wm, NegInf)) ((w0, m0) :: rest))
    /\ nth_error guesses i = Some w0.
Proof.
  intros Hwf Hi Hfail.
  destruct (recognize_spec L ((w0, m0) :: rest) test_set) as (gs & Hrec & Hall);
    [discriminate | exact Hwf |].
  destruct (Forall2_nth_error _ _ _ _ _ Hall Hi) as (g & Hg & Hguess).
  assert (Hmap : score_map L ((w0, m0) :: rest) item
                 = map (fun wm => (fst wm, NegInf)) ((w0, m0) :: rest)).
  { unfold score_map. apply map_ext_in. intros [w m] HI. cbn [fst snd].
    destruct (Hfail w m HI) as (e & He). unfold recorded_score. now rewrite He. }
  exists (map (score_map L ((w0, m0) :: rest)) test_set), gs.
  split; [exact Hrec|]. split.
  - rewrite <- Hmap. now apply map_nth_error.
  - rewrite Hg. f_equal. unfold guess_of in Hguess. rewrite Hmap in Hguess.
    simpl in Hguess. rewrite max_from_all_NegInf in Hguess.
    + now injection Hguess as <-.
    + intros e HI. apply in_map_iff in HI. now destruct HI as (x & <- & _).
Qed.

End RecognizerMore.

Lemma recognize_guess_scored_witness :
  exists probabilities guesses g model_g q,
    recognize lib_ok two_models two_items = Return (probabilities, guesses)
    /\ nth_error guesses 0 = Some g
    /\ In (g, model_g) two_models
    /\ obj_score lib_ok model_g (fst (concat_form up_sequences))
                 (snd (concat_form up_sequences)) = Return q
    /\ (inject_Z 3 * inject_Z 5 <= q)%Q.
Proof.
  apply (recognize_guess_scored lib_ok two_models two_items 0
           (concat_form up_sequences) "UP"%string (PyModel (up_model 3))).
  - exact two_models_wf.
  - reflexivity.
  - left. reflexivity.
  - reflexivity.
Defined.

Lemma recognize_all_fail_first_word_witness :
  exists probabilities guesses,
    recognize lib_nofit two_models two_items = Return (probabilities, guesses)
    /\ nth_error probabilities 1
       = Some (map (fun wm : word * pyobj => (fst wm, NegInf)) two_models)
    /\ nth_error guesses 1 = Some "UP"%string.
Proof.
  apply (recognize_all_fail_first_word lib_nofit "UP"%string
           (PyModel (up_model 3)) [("DOWN"%string, PyNone)] two_items 1
           (concat_form down_sequences)).
  - exact two_models_wf.
  - reflexivity.
  - intros w m [E|[E|[]]]; injection E as <- <-; eexists; reflexivity.
Defined.

(** ** More on the selectors *)

Lemma dict_get_Return_in {V : Type} (d : list (word * V)) (k : word) (v : V) :
  dict_get d k = Return v -> In (k, v) d.
Proof.
  induction d as [|[k' v'] rest IH]; simpl; [discriminate|].
  destruct (String.eqb k' k) eqn:E.
  - apply String.eqb_eq in E. intros H. injection H as ->. subst. now left.
  - intros H. right. now apply IH.
Qed.

Lemma dict_get_Raise {V : Type} (d : list (word * V)) (k : word) (e : exn) :
  dict_get d k = Raise e -> e = KeyError /\ ~ In k (dict_keys d).
Proof.
  induction d as [|[k' v'] rest IH]; simpl.
  - intros H. injection H as <-. split; [reflexivity | tauto].
  - destruct (String.eqb k' k) eqn:E; [discriminate|].
    intros H. destruct (IH H) as [-> Hn]. split; [reflexivity|].
    intros [Hk|Hk]; [|contradiction].
    apply String.eqb_neq in E. contradiction.
Qed.

Lemma dict_get_in_keys {V : Type} (d : list (word * V)) (k : word) :
  In k (dict_keys d) -> exists v, dict_get d k = Return v.
Proof.
  intros HI. destruct (dict_get d k) as [v|e] eqn:E; [now exists v|].
  apply dict_get_Raise in E. tauto.
Qed.

(** X1: [ModelSelector.__init__] succeeds exactly when the word is a key of
    both corpora; its only failure is [KeyError]; and the selector it builds
    holds the two corpora and the word's own entries of them. *)
Theorem ModelSelector_init_KeyError
  (all_word_sequences : list (word * list (list frame)))
  (all_word_Xlengths : list (word * (list frame * list nat)))
  (w : word) (n_const min_n max_n seed : Z) (verb : bool) :
  ((exists self,
      ModelSelector_init all_word_sequences all_word_Xlengths w
                         n_const min_n max_n seed verb = Return self)
   <-> In w (dict_keys all_word_sequences) /\ In w (dict_keys all_word_Xlengths))
  /\ (forall e,
        ModelSelector_init all_word_sequences all_word_Xlengths w
                           n_const min_n max_n seed verb = Raise e ->
        e = KeyError)
  /\ (forall self,
        ModelSelector_init all_word_sequences all_word_Xlengths w
                           n_const min_n max_n seed verb = Return self ->
        words self = all_word_sequences
        /\ hwords self = all_word_Xlengths
        /\ this_word self = w
        /\ dict_get all_word_sequences w = Return (sequences self)
        /\ dict_get all_word_Xlengths w = Return (X self, lengths self)).
Proof.
  unfold ModelSelector_init.
  destruct (dict_get all_word_sequences w) as [seqs|e1] eqn:E1.
  - destruct (dict_get all_word_Xlengths w) as [[x ls]|e2] eqn:E2.
    + split; [|split].
      * split; [|intros _; now eexists].
        intros _. apply dict_get_Return_in in E1, E2. split.
        -- change w with (fst (w, seqs)). now apply in_map.
        -- change w with (fst (w, (x, ls))). now apply in_map.
      * discriminate.
      * intros self H. injection H as <-. simpl. now repeat split.
    + destruct (dict_get_Raise _ _ _ E2) as [-> Hn]. split; [|split].
      * split; [intros (self & H); discriminate | tauto].
      * intros e H. now injection H as <-.
      * discriminate.
  - destruct (dict_get_Raise _ _ _ E1) as [-> Hn]. split; [|split].
    + split; [intros (self & H); discriminate | tauto].
    + intros e H. now injection H as <-.
    + discriminate.
Qed.

Lemma range_from_In (x n : Z) (count : nat) :
  In x (range_from n count) <-> n <= x < n + Z.of_nat count.
Proof.
  revert n. induction count as [|count IH]; intros n.
  - simpl. lia.
  - cbn [range_from In]. rewrite IH. lia.
Qed.

Lemma candidates_in_range (self : ModelSelector) (n : Z) :
  In n (candidates self) <-> in_range self n.
Proof.
  unfold candidates, in_range, range_size. rewrite range_from_In. lia.
Qed.

Section SelectorsMore.

Variable L : hmmlearn.

Lemma SelectorBIC_while_closed (fuel : nat) :
  forall (n : Z) (ml : list (pyobj * Q)) (self : ModelSelector),
    min_n_components self <= n ->
    n + Z.of_nat fuel <= max_n_components self + 1 ->
    SelectorBIC_while L fuel n ml self
    = (self, Return (ml ++ flat_map (bic_entry L self) (range_from n fuel))).
Proof.
  induction fuel as [|fuel IH]; intros n ml self Hmin Hmax.
  - simpl. now rewrite app_nil_r.
  - rewrite SelectorBIC_while_S.
    replace ((min_n_components self <=? n) && (n <=? max_n_components self))
      with true
      by (symmetry; apply andb_true_iff; split; apply Z.leb_le; lia).
    cbn zeta. rewrite IH by lia. cbn [range_from flat_map].
    unfold bic_entry at 2.
    destruct (obj_score L (fit_result L n (random_state self) (X self)
                                      (lengths self)) (X self) (lengths self));
      [now rewrite <- app_assoc | reflexivity].
Qed.

Lemma SelectorDIC_while_closed (fuel : nat) :
  forall (n : Z) (ml : list (pyobj * Q)) (self : ModelSelector),
    min_n_components self <= n ->
    n + Z.of_nat fuel <= max_n_components self + 1 ->
    SelectorDIC_while L fuel n ml self
    = (self, Return (ml ++ flat_map (dic_entry L self) (range_from n fuel))).
Proof.
  induction fuel as [|fuel IH]; intros n ml self Hmin Hmax.
  - simpl. now rewrite app_nil_r.
  - rewrite SelectorDIC_while_S.
    replace ((min_n_components self <=? n) && (n <=? max_n_components self))
      with true
      by (symmetry; apply andb_true_iff; split; apply Z.leb_le; lia).
    cbn zeta. rewrite IH by lia. cbn [range_from flat_map].
    unfold dic_entry at 2.
    destruct (obj_score L (fit_result L n (random_state self) (X self)
                                      (lengths self)) (X self) (lengths self));
      [|reflexivity].
    destruct (snd (calculate_avgscore_otherwords L (this_word self) (PyInt n)
                                                 self));
      [now rewrite <- app_assoc | reflexivity].
Qed.

Lemma range_size_cases (self : ModelSelector) :
  range_size self = 0%nat
  \/ min_n_components self + Z.of_nat (range_size self)
     <= max_n_components self + 1.
Proof. unfold range_size. lia. Qed.

(** The loop and the method of the BIC selector, in closed form. *)
Lemma SelectorBIC_closed (self : ModelSelector) :
  SelectorBIC_while L (range_size self) (min_n_components self) [] self
  = (self, Return (flat_map (bic_entry L self) (candidates self)))
  /\ SelectorBIC_select L self
     = (self, fallback_or_max L self
                (flat_map (bic_entry L self) (candidates self))).
Proof.
  assert (Hw : SelectorBIC_while L (range_size self) (min_n_components self) []
                                 self
               = (self, Return (flat_map (bic_entry L self) (candidates self)))).
  { unfold candidates. destruct (range_size_cases self) as [E|Hle].
    - rewrite E. reflexivity.
    - rewrite SelectorBIC_while_closed by (exact Hle || lia). reflexivity. }
  split; [exact Hw|].
  destruct (SelectorBIC_select_eq L self) as (rec & Hrec & _ & ->).
  rewrite Hw in Hrec. now injection Hrec as <-.
Qed.

(** The loop and the method of the DIC selector, in closed form. *)
Lemma SelectorDIC_closed (self : ModelSelector) :
  SelectorDIC_while L (range_size self) (min_n_components self) [] self
  = (self, Return (flat_map (dic_entry L self) (candidates self)))
  /\ SelectorDIC_select L self
     = (self, fallback_or_max L self
                (flat_map (dic_entry L self) (candidates self))).
Proof.
  assert (Hw : SelectorDIC_while L (range_size self) (min_n_components self) []
                                 self
               = (self, Return (flat_map (dic_entry L self) (candidates self)))).
  { unfold candidates. destruct (range_size_cases self) as [E|Hle].
    - rewrite E. reflexivity.
    - rewrite SelectorDIC_while_closed by (exact Hle || lia). reflexivity. }
  split; [exact Hw|].
  destruct (SelectorDIC_select_eq L self) as (rec & Hrec & _ & ->).
  rewrite Hw in Hrec. now injection Hrec as <-.
Qed.

(** X2: [SelectorBIC.select] never raises and never changes the selector;
    its loop records, in increasing state count, exactly the candidates of
    the range whose fit and own-data score both succeed, each with its BIC,
    and the method returns [max] over these entries, or the Constant
    selector's fallback fit when there is none. *)
Theorem SelectorBIC_select_closed_form (self : ModelSelector) :
  SelectorBIC_while L (range_size self) (min_n_components self) [] self
  = (self, Return (flat_map (bic_entry L self) (candidates self)))
  /\ SelectorBIC_select L self
     = (self, fallback_or_max L self
                (flat_map (bic_entry L self) (candidates self))).
Proof. apply SelectorBIC_closed. Qed.

(** X3: [SelectorDIC.select] never raises and never changes the selector;
    its loop records, in increasing state count, the candidates whose fit
    and own-data score succeed and for which
    [calculate_avgscore_otherwords] returned, and the method returns [max]
    over these entries, or the fallback fit when there is none. *)
Theorem SelectorDIC_select_closed_form (self : ModelSelector) :
  SelectorDIC_while L (range_size self) (min_n_components self) [] self
  = (self, Return (flat_map (dic_entry L self) (candidates self)))
  /\ SelectorDIC_select L self
     = (self, fallback_or_max L self
                (flat_map (dic_entry L self) (candidates self))).
Proof. apply SelectorDIC_closed. Qed.

(** X4: when a candidate of the range fits and scores on the word's own
    data, [SelectorBIC.select] returns a fitted candidate of the range whose
    BIC is at least that candidate's: the returned model has the greatest
    BIC of all candidates that fit and score. *)
Theorem SelectorBIC_select_greatest (self : ModelSelector) (n : Z) (s : Q) :
  in_range self n ->
  fit_converges L n (random_state self) (X self) (lengths self) = true ->
  hmm_score L (own_model self n) (X self) (lengths self) = Some s ->
  exists n' s',
    SelectorBIC_select L self = (self, Return (PyModel (own_model self n')))
    /\ in_range self n'
    /\ hmm_score L (own_model self n') (X self) (lengths self) = Some s'
    /\ (scoreBIC L s n (List.length (X self))
        <= scoreBIC L s' n' (List.length (X self)))%Q.
Proof.
  intros Hr Hfit Hs.
  destruct (SelectorBIC_select_eq L self) as (rec & Hrec & Hall & Hsel).
  destruct (SelectorBIC_closed self) as [Hw _].
  rewrite Hw in Hrec. injection Hrec as <-.
  assert (HI : In (PyModel (own_model self n),
                   scoreBIC L s n (List.length (X self)))
                  (flat_map (bic_entry L self) (candidates self))).
  { apply in_flat_map. exists n. split; [now apply candidates_in_range|].
    unfold bic_entry, fit_result. rewrite Hfit. simpl. unfold own_model in Hs.
    rewrite Hs. now left. }
  destruct (fallback_or_max_cases L self
              (flat_map (bic_entry L self) (candidates self)))
    as [[E _]|(k & v & E & Hfirst)].
  { rewrite E in HI. contradiction. }
  pose proof (first_max_in _ _ _ _ _ Hfirst) as Hin.
  rewrite Forall_forall in Hall.
  destruct (Hall _ Hin) as (n' & s' & Hr' & Hk & Hs' & Hv). cbn [fst snd] in *.
  exists n', s'. subst k v. rewrite Hsel, E.
  split; [reflexivity|]. split; [exact Hr'|]. split; [exact Hs'|].
  destruct Hfirst as [_ Hupper]. exact (Hupper _ HI).
Qed.

(** X5: a fit at least as good with no more parameters has a BIC that is no
    higher, for a non-negative [np.log] of the number of data points. *)
Theorem scoreBIC_no_higher_for_better_fit (logLike1 logLike2 : Q) (p1 p2 : Z)
  (N : nat) :
  (logLike1 <= logLike2)%Q ->
  p2 <= p1 ->
  (0 <= np_log L N)%Q ->
  (scoreBIC L logLike2 p2 N <= scoreBIC L logLike1 p1 N)%Q.
Proof.
  intros Hl Hp Hlog. unfold scoreBIC.
  apply Qplus_le_compat.
  - setoid_replace ((-2 # 1) * logLike2)%Q with (- ((2 # 1) * logLike2))%Q
      by ring.
    setoid_replace ((-2 # 1) * logLike1)%Q with (- ((2 # 1) * logLike1))%Q
      by ring.
    apply Qopp_le_compat. apply Qmult_le_l; [reflexivity | exact Hl].
  - apply Qmult_le_compat_r; [|exact Hlog]. now rewrite <- Zle_Qle.
Qed.

(** One turn of the loop of [calculate_avgscore_otherwords]. *)
Lemma avgscore_for_cons (w0 : word) (rest : list word) (w : word)
  (hmm_model : pyobj) (acc : Q) (num : Z) (self : ModelSelector) :
  avgscore_for L (w0 :: rest) w hmm_model acc num self
  = if String.eqb w0 w then avgscore_for L rest w hmm_model acc num self
    else
      match dict_get (hwords self) w0 with
      | Raise e => (self, Raise e)
      | Return xl =>
          match obj_score L hmm_model (fst xl) (snd xl) with
          | Return score =>
              avgscore_for L rest w hmm_model (acc + score)%Q num self
          | Raise _ => avgscore_for L rest w hmm_model acc (num - 1) self
          end
      end.
Proof.
  cbn [avgscore_for]. destruct (String.eqb w0 w); [reflexivity|].
  unfold bind at 1, get_self at 1. unfold bind at 1, lift at 1.
  destruct (dict_get (hwords self) w0) as [[this_X this_lengths]|e];
    [|reflexivity].
  unfold bind at 1, try_except at 1, bind at 1, lift at 1. cbn [fst snd].
  destruct (obj_score L hmm_model this_X this_lengths); reflexivity.
Qed.

Lemma avgscore_for_closed (w : word) (hmm_model : pyobj)
  (self : ModelSelector) (ws : list word) :
  forall (acc : Q) (num : Z),
    (forall w', In w' ws -> w' <> w -> In w' (dict_keys (hwords self))) ->
    avgscore_for L ws w hmm_model acc num self
    = (self,
       Return
         (sum_from acc
            (flat_map (word_score L self hmm_model)
                      (filter (fun w' => negb (String.eqb w' w)) ws)),
          num
          - Z.of_nat (List.length
                        (filter (fun w' => negb (String.eqb w' w)) ws))
          + Z.of_nat (List.length
                        (flat_map (word_score L self hmm_model)
                           (filter (fun w' => negb (String.eqb w' w)) ws))))).
Proof.
  induction ws as [|w0 rest IH]; intros acc num Hall.
  - simpl. unfold ret. do 2 f_equal. apply f_equal2; [reflexivity | lia].
  - rewrite avgscore_for_cons. cbn [filter].
    assert (Hrest : forall w', In w' rest -> w' <> w ->
                               In w' (dict_keys (hwords self))).
    { intros w' HI. apply Hall. now right. }
    destruct (String.eqb w0 w) eqn:E; cbn [negb].
    + now apply IH.
    + apply String.eqb_neq in E.
      destruct (dict_get_in_keys (hwords self) w0) as (xl & Hxl).
      { apply Hall; [now left | exact E]. }
      rewrite Hxl. cbn [flat_map].
      assert (Hws : word_score L self hmm_model w0
                    = match obj_score L hmm_model (fst xl) (snd xl) with
                      | Return s => [s]
                      | Raise _ => []
                      end).
      { unfold word_score. now rewrite Hxl. }
      rewrite Hws.
      destruct (obj_score L hmm_model (fst xl) (snd xl)) as [s|e].
      * rewrite (IH (acc + s)%Q num Hrest). cbn [app List.length].
        do 2 f_equal. apply f_equal2; [reflexivity | lia].
      * rewrite (IH acc (num - 1) Hrest). cbn [app List.length].
        do 2 f_equal. apply f_equal2; [reflexivity | lia].
Qed.

Lemma filter_other_length (w : word) (l : list word) :
  NoDup l -> In w l ->
  S (List.length (filter (fun w' => negb (String.eqb w' w)) l)) = List.length l.
Proof.
  induction l as [|x rest IH]; intros Hnd HI; [contradiction|].
  inversion Hnd as [|? ? Hnot Hnd']; subst. cbn [filter List.length].
  destruct (String.eqb x w) eqn:E; cbn [negb].
  - apply String.eqb_eq in E. subst x. f_equal.
    clear IH HI Hnd Hnd'. induction rest as [|y rest IH]; [reflexivity|].
    cbn [filter List.length].
    destruct (String.eqb y w) eqn:Ey.
    + apply String.eqb_eq in Ey. subst y. exfalso. apply Hnot. now left.
    + cbn [negb List.length]. f_equal. apply IH. intros H. apply Hnot. now right.
  - cbn [List.length]. f_equal. apply IH; [exact Hnd'|].
    destruct HI as [->|HI]; [|exact HI].
    rewrite String.eqb_refl in E. discriminate.
Qed.

(** X6: [calculate_avgscore_otherwords], for a word of the corpus and a
    corpus whose other words all have data, never raises and never changes
    the selector: it returns the sum of the scores of the given model on the
    other words it can score, divided by the number of those words, and 0
    when it can score none. *)
Theorem calculate_avgscore_otherwords_average (self : ModelSelector)
  (w : word) (hmm_model : pyobj) :
  dict_wf (words self) ->
  In w (dict_keys (words self)) ->
  (forall w', In w' (other_words self w) -> In w' (dict_keys (hwords self))) ->
  calculate_avgscore_otherwords L w hmm_model self
  = (self,
     Return (let scores := other_scores L self hmm_model w in
             if (0 <? Z.of_nat (List.length scores))
             then (sum_from 0 scores
                   / inject_Z (Z.of_nat (List.length scores)))%Q
             else 0%Q)).
Proof.
  intros Hwf Hin Hdata.
  unfold calculate_avgscore_otherwords. unfold bind at 1, get_self at 1.
  unfold bind at 1.
  rewrite avgscore_for_closed.
  - fold (other_words self w). fold (other_scores L self hmm_model w).
    pose proof (filter_other_length w (dict_keys (words self)) Hwf Hin) as Hlen.
    fold (other_words self w) in Hlen.
    assert (Hk : List.length (dict_keys (words self))
                 = List.length (words self))
      by (unfold dict_keys; apply length_map).
    rewrite Hk in Hlen.
    change (@List.length word) with (@List.length string) in *.
    match goal with
    | |- context [?a - 1 - ?b + ?c] =>
        replace (a - 1 - b + c) with c by lia
    end.
    destruct (0 <? Z.of_nat (List.length (other_scores L self hmm_model w)));
      reflexivity.
  - intros w' HI Hne. apply Hdata. unfold other_words. apply filter_In.
    split; [exact HI|]. apply negb_true_iff. now apply String.eqb_neq.
Qed.

Lemma calculate_avgscore_otherwords_returns (self : ModelSelector)
  (w : word) (hmm_model : pyobj) :
  (forall w', In w' (other_words self w) -> In w' (dict_keys (hwords self))) ->
  exists avg,
    calculate_avgscore_otherwords L w hmm_model self = (self, Return avg).
Proof.
  intros Hdata.
  unfold calculate_avgscore_otherwords. unfold bind at 1, get_self at 1.
  unfold bind at 1. rewrite avgscore_for_closed.
  - match goal with
    | |- context [if ?c then _ else _] => destruct c
    end; eexists; reflexivity.
  - intros w' HI Hne. apply Hdata. unfold other_words. apply filter_In.
    split; [exact HI|]. apply negb_true_iff. now apply String.eqb_neq.
Qed.

(** X7: when every other word of the corpus has data, and some candidate of
    the range fits and scores on the word's own data, [SelectorDIC.select]
    returns a fitted candidate of the range whose own-data log-likelihood is
    at least that candidate's: the returned model is the one that scores the
    word's own data best, whatever it scores on the other words. *)
Theorem SelectorDIC_select_greatest_own_score (self : ModelSelector) (n : Z)
  (s : Q) :
  (forall w', In w' (other_words self (this_word self)) ->
              In w' (dict_keys (hwords self))) ->
  in_range self n ->
  fit_converges L n (random_state self) (X self) (lengths self) = true ->
  hmm_score L (own_model self n) (X self) (lengths self) = Some s ->
  exists n' s',
    SelectorDIC_select L self = (self, Return (PyModel (own_model self n')))
    /\ in_range self n'
    /\ hmm_score L (own_model self n') (X self) (lengths self) = Some s'
    /\ (s <= s')%Q.
Proof.
  intros Hdata Hr Hfit Hs.
  destruct (SelectorDIC_select_eq L self) as (rec & Hrec & Hall & Hsel).
  destruct (SelectorDIC_closed self) as [Hw _].
  rewrite Hw in Hrec. injection Hrec as <-.
  destruct (calculate_avgscore_otherwords_returns self (this_word self)
              (PyInt n) Hdata) as (avg & Havg).
  assert (Havg0 : (avg == 0)%Q).
  { apply (calculate_avgscore_otherwords_PyInt L (this_word self) n self).
    now rewrite Havg. }
  assert (HI : In (PyModel (own_model self n), (s - avg)%Q)
                  (flat_map (dic_entry L self) (candidates self))).
  { apply in_flat_map. exists n. split; [now apply candidates_in_range|].
    unfold dic_entry, fit_result. rewrite Hfit. simpl. unfold own_model in Hs.
    rewrite Hs, Havg. now left. }
  destruct (fallback_or_max_cases L self
              (flat_map (dic_entry L self) (candidates self)))
    as [[E _]|(k & v & E & Hfirst)].
  { rewrite E in HI. contradiction. }
  pose proof (first_max_in _ _ _ _ _ Hfirst) as Hin.
  rewrite Forall_forall in Hall.
  pose proof (Hall _ Hin) as Hrecorded.
  destruct (SelectorDIC_records_own_score L self _ Hrecorded)
    as (n' & s' & Hk & Hs' & Hv).
  destruct Hrecorded as (n'' & _ & _ & Hr' & Hk' & _).
  cbn [fst snd] in *. rewrite Hk in Hk'. injection Hk' as Hn. subst n''.
  exists n', s'. subst k. rewrite Hsel, E.
  split; [reflexivity|]. split; [exact Hr'|]. split; [exact Hs'|].
  destruct Hfirst as [_ Hupper]. pose proof (Hupper _ HI) as Hle.
  cbn [snd] in Hle. rewrite Hv, Havg0 in Hle.
  unfold Qminus in Hle. setoid_replace (- 0)%Q with 0%Q in Hle by reflexivity.
  now rewrite Qplus_0_r in Hle.
Qed.

Lemma avgscore_for_missing (w w' : word) (hmm_model : pyobj)
  (self : ModelSelector) (ws : list word) :
  w' <> w -> ~ In w' (dict_keys (hwords self)) ->
  forall (acc : Q) (num : Z),
    In w' ws ->
    snd (avgscore_for L ws w hmm_model acc num self) = Raise KeyError.
Proof.
  intros Hne Hmiss. induction ws as [|w0 rest IH]; intros acc num HI;
    [contradiction|].
  rewrite avgscore_for_cons.
  destruct (String.eqb w0 w) eqn:E.
  - apply String.eqb_eq in E. subst w0. apply IH.
    destruct HI as [HI|HI]; [congruence | exact HI].
  - destruct (dict_get (hwords self) w0) as [xl|e] eqn:Hget.
    + assert (Hrest : In w' rest).
      { destruct HI as [->|HI]; [|exact HI].
        apply dict_get_Return_in in Hget. exfalso. apply Hmiss.
        change w' with (fst (w', xl)). now apply in_map. }
      destruct (obj_score L hmm_model (fst xl) (snd xl)); now apply IH.
    + apply dict_get_Raise in Hget. destruct Hget as [-> _]. reflexivity.
Qed.

(** X8: when some other word of the corpus has no data in [hwords],
    [calculate_avgscore_otherwords] raises [KeyError] for every candidate,
    [SelectorDIC.select] records none and returns exactly the Constant
    selector's result. *)
Theorem SelectorDIC_select_missing_data (self : ModelSelector) (w' : word) :
  In w' (dict_keys (words self)) ->
  w' <> this_word self ->
  ~ In w' (dict_keys (hwords self)) ->
  (forall hmm_model,
     snd (calculate_avgscore_otherwords L (this_word self) hmm_model self)
     = Raise KeyError)
  /\ SelectorDIC_select L self = SelectorConstant_select L self.
Proof.
  intros HI Hne Hmiss.
  assert (Hcalc : forall hmm_model,
            snd (calculate_avgscore_otherwords L (this_word self) hmm_model
                                               self) = Raise KeyError).
  { intros hmm_model. unfold calculate_avgscore_otherwords.
    unfold bind at 1, get_self at 1. unfold bind at 1.
    rewrite (stateless_eq _ self (stateless_avgscore_for L _ _ _ _ _)).
    now rewrite (avgscore_for_missing (this_word self) w' hmm_model self
                   (dict_keys (words self)) Hne Hmiss). }
  split; [exact Hcalc|].
  destruct (SelectorDIC_closed self) as [_ ->].
  rewrite SelectorConstant_select_eq.
  replace (flat_map (dic_entry L self) (candidates self)) with
    (@nil (pyobj * Q)); [reflexivity|].
  symmetry. induction (candidates self) as [|n rest IH]; [reflexivity|].
  cbn [flat_map]. rewrite IH, app_nil_r. unfold dic_entry.
  rewrite Hcalc.
  destruct (obj_score L _ (X self) (lengths self)); reflexivity.
Qed.

(** X9: with an empty candidate range the BIC and DIC selectors return
    exactly the Constant selector's result, while [SelectorCV.select], which
    has no such guard, raises [ValueError] from [max] over its empty
    [model_list]. *)
Theorem select_empty_range (self : ModelSelector) :
  max_n_components self < min_n_components self ->
  SelectorBIC_select L self = SelectorConstant_select L self
  /\ SelectorDIC_select L self = SelectorConstant_select L self
  /\ SelectorCV_select L self = (self, Raise ValueError).
Proof.
  intros Hempty.
  assert (Hsize : range_size self = 0%nat) by (unfold range_size; lia).
  assert (Hcand : candidates self = []) by (unfold candidates; now rewrite Hsize).
  destruct (SelectorBIC_closed self) as [_ ->].
  destruct (SelectorDIC_closed self) as [_ ->].
  rewrite SelectorCV_select_eq, SelectorConstant_select_eq, Hcand, Hsize.
  repeat split.
Qed.

End SelectorsMore.

Lemma corpus_words_wf : dict_wf corpus_sequences.
Proof.
  unfold dict_wf, corpus_sequences, dict_keys. simpl.
  repeat constructor; simpl; intuition discriminate.
Qed.

Lemma up_other_words_have_data (n_const min_n max_n : Z) (w' : word) :
  In w' (other_words (up_selector n_const min_n max_n) "UP"%string) ->
  In w' (dict_keys (hwords (up_selector n_const min_n max_n))).
Proof. intros [<-|[]]. right. now left. Qed.

Lemma SelectorBIC_select_greatest_witness :
  exists n' s',
    SelectorBIC_select lib_bic (up_selector 3 2 3)
    = (up_selector 3 2 3, Return (PyModel (own_model (up_selector 3 2 3) n')))
    /\ in_range (up_selector 3 2 3) n'
    /\ hmm_score lib_bic (own_model (up_selector 3 2 3) n')
                 (X (up_selector 3 2 3)) (lengths (up_selector 3 2 3))
       = Some s'
    /\ (scoreBIC lib_bic (-9 # 1) 3 (List.length (X (up_selector 3 2 3)))
        <= scoreBIC lib_bic s' n' (List.length (X (up_selector 3 2 3))))%Q.
Proof.
  apply (SelectorBIC_select_greatest lib_bic (up_selector 3 2 3) 3 (-9 # 1)).
  - unfold in_range. simpl. lia.
  - reflexivity.
  - reflexivity.
Defined.

Lemma scoreBIC_no_higher_for_better_fit_witness :
  (scoreBIC lib_bic (-9 # 1) 2 5 <= scoreBIC lib_bic (-10 # 1) 3 5)%Q.
Proof.
  apply (scoreBIC_no_higher_for_better_fit lib_bic (-10 # 1) (-9 # 1) 3 2 5).
  - vm_compute. discriminate.
  - lia.
  - vm_compute. discriminate.
Defined.

Lemma calculate_avgscore_otherwords_average_witness :
  calculate_avgscore_otherwords lib_dic "UP"%string (PyModel (up_model 2))
                                (up_selector 3 2 2)
  = (up_selector 3 2 2,
     Return (let scores :=
               other_scores lib_dic (up_selector 3 2 2) (PyModel (up_model 2))
                            "UP"%string in
             if (0 <? Z.of_nat (List.length scores))
             then (sum_from 0 scores
                   / inject_Z (Z.of_nat (List.length scores)))%Q
             else 0%Q)).
Proof.
  apply (calculate_avgscore_otherwords_average lib_dic (up_selector 3 2 2)
           "UP"%string (PyModel (up_model 2))).
  - exact corpus_words_wf.
  - left. reflexivity.
  - apply up_other_words_have_data.
Defined.

Lemma SelectorDIC_select_greatest_own_score_witness :
  exists n' s',
    SelectorDIC_select lib_dic (up_selector 3 2 3)
    = (up_selector 3 2 3, Return (PyModel (own_model (up_selector 3 2 3) n')))
    /\ in_range (up_selector 3 2 3) n'
    /\ hmm_score lib_dic (own_model (up_selector 3 2 3) n')
                 (X (up_selector 3 2 3)) (lengths (up_selector 3 2 3))
       = Some s'
    /\ (-5 # 1 <= s')%Q.
Proof.
  apply (SelectorDIC_select_greatest_own_score lib_dic (up_selector 3 2 3) 3
           (-5 # 1)).
  - apply up_other_words_have_data.
  - unfold in_range. simpl. lia.
  - reflexivity.
  - reflexivity.
Defined.

Lemma SelectorDIC_select_missing_data_witness :
  (forall hmm_model,
     snd (calculate_avgscore_otherwords lib_dic "UP"%string hmm_model
                                        missing_data_selector)
     = Raise KeyError)
  /\ SelectorDIC_select lib_dic missing_data_selector
     = SelectorConstant_select lib_dic missing_data_selector.
Proof.
  apply (SelectorDIC_select_missing_data lib_dic missing_data_selector
           "DOWN"%string).
  - right. left. reflexivity.
  - discriminate.
  - intros [H|[]]. discriminate.
Defined.

Lemma select_empty_range_witness :
  SelectorBIC_select lib_ok (up_selector 3 4 2)
  = SelectorConstant_select lib_ok (up_selector 3 4 2)
  /\ SelectorDIC_select lib_ok (up_selector 3 4 2)
     = SelectorConstant_select lib_ok (up_selector 3 4 2)
  /\ SelectorCV_select lib_ok (up_selector 3 4 2)
     = (up_selector 3 4 2, Raise ValueError).
Proof.
  apply (select_empty_range lib_ok (up_selector 3 4 2)).
  simpl. lia.
Defined.

(** ** More on cross-validation *)

Lemma fold_size_sum (n : nat) :
  (fold_size n 0 + fold_size n 1 + fold_size n 2 = n)%nat.
Proof.
  unfold fold_size.
  pose proof (Nat.div_mod_eq n 3) as Hd.
  pose proof (Nat.mod_upper_bound n 3 ltac:(discriminate)) as Hm.
  destruct (0 <? n mod 3)%nat eqn:E0; destruct (1 <? n mod 3)%nat eqn:E1;
    destruct (2 <? n mod 3)%nat eqn:E2;
    repeat match goal with
           | H : (_ <? _)%nat = true |- _ => apply Nat.ltb_lt in H
           | H : (_ <? _)%nat = false |- _ => apply Nat.ltb_ge in H
           end; lia.
Qed.

Lemma fold_size_positive (n i : nat) : (3 <= n)%nat -> (1 <= fold_size n i)%nat.
Proof.
  intros H. unfold fold_size.
  pose proof (Nat.div_mod_eq n 3) as Hd.
  pose proof (Nat.mod_upper_bound n 3 ltac:(discriminate)) as Hm.
  lia.
Qed.

Lemma fold_size_last (n : nat) : fold_size n 2 = (n / 3)%nat.
Proof.
  unfold fold_size.
  pose proof (Nat.mod_upper_bound n 3 ltac:(discriminate)) as Hm.
  destruct (2 <? n mod 3)%nat eqn:E; [apply Nat.ltb_lt in E; lia | lia].
Qed.

(** The three folds of [n >= 3] items. *)
Lemma KFold_split_3_explicit (n : nat) :
  (3 <= n)%nat ->
  KFold_split 3 n
  = Return
      [(seq 0 0 ++ seq (fold_size n 0) (n - fold_size n 0),
        seq 0 (fold_size n 0));
       (seq 0 (fold_size n 0)
          ++ seq (fold_size n 0 + fold_size n 1)
                 (n - (fold_size n 0 + fold_size n 1)),
        seq (fold_size n 0) (fold_size n 1));
       (seq 0 (fold_size n 0 + fold_size n 1)
          ++ seq (fold_size n 0 + fold_size n 1 + fold_size n 2)
                 (n - (fold_size n 0 + fold_size n 1 + fold_size n 2)),
        seq (fold_size n 0 + fold_size n 1) (fold_size n 2))].
Proof.
  intros H. unfold KFold_split. apply Nat.ltb_ge in H. rewrite H.
  reflexivity.
Qed.

Lemma Forall_seq_lt (start len n : nat) :
  (start + len <= n)%nat -> Forall (fun i => (i < n)%nat) (seq start len).
Proof.
  intros H. apply Forall_forall. intros i Hi. apply in_seq in Hi. lia.
Qed.

(** The training partition of a fold indexes the list, and leaves at least
    one item out. *)
Lemma KFold_split_3_train (n : nat) (folds : list (list nat * list nat))
  (train test : list nat) :
  KFold_split 3 n = Return folds -> In (train, test) folds ->
  Forall (fun i => (i < n)%nat) train /\ (List.length train < n)%nat.
Proof.
  intros Hk HI. destruct (KFold_split_3 _ _ Hk) as [Hn _].
  rewrite (KFold_split_3_explicit n Hn) in Hk. injection Hk as <-.
  pose proof (fold_size_sum n) as Hsum.
  pose proof (fold_size_positive n 0 Hn) as H0.
  pose proof (fold_size_positive n 1 Hn) as H1.
  pose proof (fold_size_positive n 2 Hn) as H2.
  destruct HI as [E|[E|[E|[]]]]; injection E as <- _;
    (split;
     [rewrite ?Forall_app; repeat split; apply Forall_seq_lt; lia
     | rewrite ?length_app, ?length_seq; simpl; lia]).
Qed.

Lemma index_sequences_ok (seqs : list (list frame)) (idx : list nat) :
  Forall (fun i => (i < List.length seqs)%nat) idx ->
  exists fold,
    index_sequences idx seqs = Return fold
    /\ List.length fold = List.length idx.
Proof.
  induction 1 as [|i rest Hi _ IH].
  - exists []. split; reflexivity.
  - destruct IH as (fold & Hf & Hl). simpl.
    destruct (nth_error seqs i) as [s|] eqn:E.
    + rewrite Hf. exists (s :: fold). split; [reflexivity | simpl; congruence].
    + apply nth_error_None in E. lia.
Qed.

(** The concatenated form of a training partition always exists, and has
    fewer sequence lengths than the list has sequences. *)
Lemma combine_sequences_train (self : ModelSelector) (train test : list nat) :
  In (train, test) (cv_folds self) ->
  exists xl,
    combine_sequences train (sequences self) = Return xl
    /\ (List.length (snd xl) < List.length (sequences self))%nat.
Proof.
  unfold cv_folds.
  destruct (KFold_split 3 (List.length (sequences self))) as [folds|e] eqn:Hk;
    [|contradiction].
  intros HI. destruct (KFold_split_3_train _ _ _ _ Hk HI) as [Hall Hlen].
  destruct (index_sequences_ok (sequences self) train Hall) as (fold & Hf & Hl).
  unfold combine_sequences. rewrite Hf. eexists. split; [reflexivity|].
  cbn [snd]. rewrite length_map. lia.
Qed.

Section CrossValidationMore.

Variable L : hmmlearn.

(** Once the loop over the folds has started, the selector holds a training
    partition. *)
Lemma SelectorCV_for_partition (self0 : ModelSelector)
  (folds : list (list nat * list nat)) (n : Z) :
  (forall f, In f folds -> In f (cv_folds self0)) ->
  forall (acc : Q) (m : pyobj) (self : ModelSelector),
    same_setup self0 self ->
    folds <> [] \/ holds_partition self0 self ->
    holds_partition self0 (fst (SelectorCV_for L folds n acc m self))
    /\ same_setup self0 (fst (SelectorCV_for L folds n acc m self)).
Proof.
  induction folds as [|[train test] rest IH]; intros Hsub acc m self Hs Hstart.
  - destruct Hstart as [Hne|Hp]; [congruence|]. simpl. now split.
  - rewrite SelectorCV_for_cons.
    assert (Eseq : sequences self = sequences self0) by apply Hs.
    destruct (combine_sequences_train self0 train test) as (xl & Hxl & _).
    { apply Hsub. now left. }
    rewrite Eseq, Hxl. cbn zeta.
    assert (Hp1 : holds_partition self0 (with_X_lengths self xl)).
    { exists train, test. split; [apply Hsub; now left|].
      rewrite Hxl. now destruct xl. }
    pose proof (same_setup_step self0 self xl Hs) as Hs1.
    destruct (combine_sequences test (sequences self0)) as [txl|e];
      [|now split].
    destruct (obj_score L (fit_result L n (random_state self) (fst xl) (snd xl))
                        (fst txl) (snd txl)) as [s|e]; [|now split].
    apply IH; [|exact Hs1 | now right].
    intros f Hf. apply Hsub. now right.
Qed.

Lemma SelectorCV_while_partition (self0 : ModelSelector) :
  (3 <= List.length (sequences self0))%nat ->
  forall (fuel : nat) (n : Z) (ml : list (pyobj * Q)) (self : ModelSelector),
    same_setup self0 self ->
    holds_partition self0 self \/ (fuel <> 0%nat /\ in_range self0 n) ->
    holds_partition self0 (fst (SelectorCV_while L 3 fuel n ml self)).
Proof.
  intros Hlen. induction fuel as [|fuel IH]; intros n ml self Hs Hstart.
  - destruct Hstart as [Hp|[Hf _]]; [exact Hp | congruence].
  - rewrite SelectorCV_while_S.
    assert (Emin : min_n_components self = min_n_components self0) by apply Hs.
    assert (Emax : max_n_components self = max_n_components self0) by apply Hs.
    assert (Eseq : sequences self = sequences self0) by apply Hs.
    rewrite Emin, Emax, Eseq.
    destruct ((min_n_components self0 <=? n) && (n <=? max_n_components self0))
      eqn:Hc.
    + rewrite (KFold_split_3_explicit _ Hlen).
      match goal with
      | |- context [SelectorCV_for L ?fs n 0%Q PyNone self] => set (folds := fs)
      end.
      assert (Hfolds : cv_folds self0 = folds).
      { unfold cv_folds. now rewrite (KFold_split_3_explicit _ Hlen). }
      destruct (SelectorCV_for_partition self0 folds n) with
        (acc := 0%Q) (m := PyNone) (self := self) as [Hp1 Hs1].
      * intros f Hf. now rewrite Hfolds.
      * exact Hs.
      * left. discriminate.
      * destruct (SelectorCV_for L folds n 0%Q PyNone self) as [self1 [res|e]];
          cbn [fst] in *; [|exact Hp1].
        apply IH; [exact Hs1 | now left].
    + destruct Hstart as [Hp|[_ [Hr1 Hr2]]]; [exact Hp|].
      apply andb_false_iff in Hc.
      destruct Hc as [Hc|Hc]; apply Z.leb_gt in Hc; lia.
Qed.

(** X10: for every word with at least three training sequences and a
    non-empty candidate range, [SelectorCV.select] leaves the selector
    holding the concatenated form of the training partition of a fold: its
    list of sequence lengths is shorter than the sequence list, so the
    selector no longer describes the word's whole data. *)
Theorem SelectorCV_select_holds_partition (self : ModelSelector) :
  (3 <= List.length (sequences self))%nat ->
  min_n_components self <= max_n_components self ->
  holds_partition self (fst (SelectorCV_select L self))
  /\ (List.length (lengths (fst (SelectorCV_select L self)))
      < List.length (sequences self))%nat
  /\ ~ consistent (fst (SelectorCV_select L self)).
Proof.
  intros Hlen Hrange.
  assert (Hfst : fst (SelectorCV_select L self)
                 = fst (SelectorCV_while L 3 (range_size self)
                                         (min_n_components self) [] self)).
  { rewrite SelectorCV_select_eq.
    destruct (SelectorCV_while L 3 (range_size self) (min_n_components self) []
                               self) as [s1 [ml|e]]; reflexivity. }
  rewrite Hfst.
  assert (Hp : holds_partition self
                 (fst (SelectorCV_while L 3 (range_size self)
                                        (min_n_components self) [] self))).
  { apply SelectorCV_while_partition;
      [exact Hlen | apply same_setup_refl |].
    right. split; [unfold range_size; lia | unfold in_range; lia]. }
  destruct (SelectorCV_while_inv L (range_size self) (min_n_components self) []
                                 self) as (s1 & r & Hw & Hs & _).
  rewrite Hw in *. cbn [fst] in *.
  assert (Hshort : (List.length (lengths s1) < List.length (sequences self))%nat).
  { destruct Hp as (train & test & HI & Hc).
    destruct (combine_sequences_train self train test HI) as (xl & Hxl & Hl).
    rewrite Hxl in Hc. injection Hc as ->. exact Hl. }
  split; [exact Hp|]. split; [exact Hshort|].
  unfold consistent, concat_form. intros Hcons. injection Hcons as _ Hl.
  assert (Eseq : sequences s1 = sequences self) by apply Hs.
  rewrite Hl, length_map, Eseq in Hshort. lia.
Qed.

(** A fold that cannot be fit or scored stops the loop over the folds. *)
Lemma SelectorCV_for_fails (self0 : ModelSelector) (n : Z)
  (folds : list (list nat * list nat)) :
  Exists (fun f => fold_score L self0 n f = None) folds ->
  forall (acc : Q) (m : pyobj) (self : ModelSelector),
    same_setup self0 self ->
    exists self' e, SelectorCV_for L folds n acc m self = (self', Raise e).
Proof.
  induction folds as [|f rest IH]; intros Hex acc m self Hs.
  - inversion Hex.
  - destruct (fold_score L self0 n f) as [s|] eqn:Hscore.
    + destruct (SelectorCV_for_step L self0 self n f rest acc m s Hs Hscore)
        as (m1 & xl & _ & ->).
      apply IH.
      * inversion Hex as [? ? Hhd|? ? Htl]; subst; [congruence | exact Htl].
      * now apply same_setup_step.
    + destruct f as [train test].
      assert (Hseq : sequences self = sequences self0) by apply Hs.
      assert (Hseed : random_state self = random_state self0) by apply Hs.
      rewrite SelectorCV_for_cons, Hseq, Hseed.
      unfold fold_score, fold_fit in Hscore. cbn [fst snd] in Hscore.
      destruct (combine_sequences train (sequences self0)) as [xl|e];
        [|now eexists _, _].
      cbn zeta. unfold fit_result.
      destruct (combine_sequences test (sequences self0)) as [txl|e];
        [|now eexists _, _].
      destruct (fit_converges L n (random_state self0) (fst xl) (snd xl)).
      * simpl obj_score. rewrite Hscore. now eexists _, _.
      * simpl obj_score. now eexists _, _.
Qed.

Lemma SelectorCV_while_fails (self0 : ModelSelector)
  (f1 f2 f3 : list nat * list nat) :
  KFold_split 3 (List.length (sequences self0)) = Return [f1; f2; f3] ->
  forall (fuel : nat) (n : Z) (ml : list (pyobj * Q)) (self : ModelSelector),
    same_setup self0 self ->
    min_n_components self0 <= n ->
    (exists n' fold,
        n <= n' < n + Z.of_nat fuel /\ n' <= max_n_components self0
        /\ In fold [f1; f2; f3] /\ fold_score L self0 n' fold = None) ->
    exists self' e, SelectorCV_while L 3 fuel n ml self = (self', Raise e).
Proof.
  intros Hk. induction fuel as [|fuel IH];
    intros n ml self Hs Hmin (n' & fold & Hn' & Hmax & HI & Hnone); [lia|].
  rewrite SelectorCV_while_S.
  assert (Emin : min_n_components self = min_n_components self0) by apply Hs.
  assert (Emax : max_n_components self = max_n_components self0) by apply Hs.
  assert (Eseq : sequences self = sequences self0) by apply Hs.
  rewrite Emin, Emax, Eseq, Hk.
  replace ((min_n_components self0 <=? n) && (n <=? max_n_components self0))
    with true
    by (symmetry; apply andb_true_iff; split; apply Z.leb_le; lia).
  destruct (fold_score L self0 n f1) as [s1|] eqn:H1;
    [destruct (fold_score L self0 n f2) as [s2|] eqn:H2;
     [destruct (fold_score L self0 n f3) as [s3|] eqn:H3|]|].
  - destruct (SelectorCV_for_three L self0 self n f1 f2 f3 s1 s2 s3 Hs H1 H2 H3)
      as (self1 & m & -> & Hs1 & _).
    cbn [fst snd]. apply IH; [exact Hs1 | lia|].
    exists n', fold. split; [|now repeat split].
    assert (n' <> n); [|lia].
    intros ->. destruct HI as [<-|[<-|[<-|[]]]]; congruence.
  - destruct (SelectorCV_for_fails self0 n [f1; f2; f3]) with
      (acc := 0%Q) (m := PyNone) (self := self) as (self' & e & ->);
      [do 2 apply Exists_cons_tl; now apply Exists_cons_hd | exact Hs |].
    now eexists _, _.
  - destruct (SelectorCV_for_fails self0 n [f1; f2; f3]) with
      (acc := 0%Q) (m := PyNone) (self := self) as (self' & e & ->);
      [apply Exists_cons_tl; now apply Exists_cons_hd | exact Hs |].
    now eexists _, _.
  - destruct (SelectorCV_for_fails self0 n [f1; f2; f3]) with
      (acc := 0%Q) (m := PyNone) (self := self) as (self' & e & ->);
      [now apply Exists_cons_hd | exact Hs |].
    now eexists _, _.
Qed.

(** X11: the fallback of [SelectorCV.select] is for the whole selector, not
    for one state count: when any fold of any candidate of the range cannot
    be fit or scored, the method returns the result of fitting with the
    fallback state count, and it fits it on the training partition of a
    fold, which the selector then holds, not on the word's whole data. *)
Theorem SelectorCV_select_fold_failure (self : ModelSelector) (n : Z)
  (fold : list nat * list nat) :
  in_range self n ->
  In fold (cv_folds self) ->
  fold_score L self n fold = None ->
  exists self',
    SelectorCV_select L self
    = (self', Return (fit_result L (n_constant self) (random_state self)
                                 (X self') (lengths self')))
    /\ holds_partition self self'
    /\ recorded_candidates L CrossValidated self = [].
Proof.
  intros [Hr1 Hr2] HI Hnone.
  assert (Hk : exists f1 f2 f3,
             KFold_split 3 (List.length (sequences self)) = Return [f1; f2; f3]).
  { unfold cv_folds in HI.
    destruct (KFold_split 3 (List.length (sequences self))) as [folds|e] eqn:Hk;
      [|contradiction].
    destruct (KFold_split_3 _ _ Hk) as (_ & f1 & f2 & f3 & ->).
    now exists f1, f2, f3. }
  destruct Hk as (f1 & f2 & f3 & Hk).
  assert (Hlen : (3 <= List.length (sequences self))%nat)
    by apply (KFold_split_3 _ _ Hk).
  assert (Hfolds : cv_folds self = [f1; f2; f3])
    by (unfold cv_folds; now rewrite Hk).
  rewrite Hfolds in HI.
  destruct (SelectorCV_while_fails self f1 f2 f3 Hk (range_size self)
              (min_n_components self) [] self (same_setup_refl self)
              (Z.le_refl _)) as (self' & e & Hw).
  { exists n, fold. unfold range_size. repeat split; try assumption; lia. }
  pose proof (SelectorCV_while_partition self Hlen (range_size self)
                (min_n_components self) [] self (same_setup_refl self)) as Hp.
  rewrite Hw in Hp. cbn [fst] in Hp.
  destruct (SelectorCV_while_inv L (range_size self) (min_n_components self) []
                                 self) as (s1 & r & Hw' & Hs & _).
  rewrite Hw in Hw'. injection Hw' as <- <-.
  exists self'. rewrite SelectorCV_select_eq, Hw.
  assert (E1 : n_constant self' = n_constant self) by apply Hs.
  assert (E2 : random_state self' = random_state self) by apply Hs.
  rewrite E1, E2. split; [reflexivity|]. split.
  - apply Hp. right. split; [unfold range_size; lia | unfold in_range; lia].
  - unfold recorded_candidates. now rewrite Hw.
Qed.

Lemma index_sequences_middle (k : nat) :
  forall (pre seqs : list (list frame)),
    (k <= List.length seqs)%nat ->
    index_sequences (seq (List.length pre) k) (pre ++ seqs)
    = Return (firstn k seqs).
Proof.
  induction k as [|k IH]; intros pre seqs Hk; [reflexivity|].
  destruct seqs as [|x rest]; [simpl in Hk; lia|].
  cbn [seq index_sequences firstn].
  rewrite nth_error_app2 by apply Nat.le_refl. rewrite Nat.sub_diag.
  cbn [nth_error].
  pose proof (IH (pre ++ [x]) rest) as H.
  rewrite length_app, Nat.add_1_r, <- app_assoc in H. cbn [app] in H.
  rewrite H by (simpl in Hk; lia). reflexivity.
Qed.

(** The training partition of the last fold is the sequences before the
    last block. *)
Lemma combine_sequences_last_fold (seqs : list (list frame))
  (f1 f2 f3 : list nat * list nat) :
  KFold_split 3 (List.length seqs) = Return [f1; f2; f3] ->
  combine_sequences (fst f3) seqs
  = Return (concat_form
              (firstn (List.length seqs - List.length seqs / 3) seqs)).
Proof.
  intros Hk. destruct (KFold_split_3 _ _ Hk) as [Hn _].
  rewrite (KFold_split_3_explicit _ Hn) in Hk. injection Hk as _ _ <-.
  pose proof (fold_size_sum (List.length seqs)) as Hsum.
  pose proof (fold_size_last (List.length seqs)) as Hlast.
  cbn [fst]. rewrite Hsum, Nat.sub_diag. cbn [seq]. rewrite app_nil_r.
  replace (fold_size (List.length seqs) 0 + fold_size (List.length seqs) 1)%nat
    with (List.length seqs - List.length seqs / 3)%nat by lia.
  unfold combine_sequences.
  rewrite (index_sequences_middle _ [] seqs) by lia. reflexivity.
Qed.

(** One fold that fits and scores, with the data it leaves in the
    selector. *)
Lemma SelectorCV_for_step_data (self0 self : ModelSelector) (n : Z)
  (f : list nat * list nat) (rest : list (list nat * list nat)) (acc : Q)
  (m0 : pyobj) (s : Q) :
  same_setup self0 self ->
  fold_score L self0 n f = Some s ->
  exists m xl,
    combine_sequences (fst f) (sequences self0) = Return xl
    /\ SelectorCV_for L (f :: rest) n acc m0 self
       = SelectorCV_for L rest n (acc + s)%Q (PyModel m)
                        (with_X_lengths self xl).
Proof.
  intros Hs Hscore. destruct f as [train test].
  assert (Hseq : sequences self = sequences self0) by apply Hs.
  assert (Hseed : random_state self = random_state self0) by apply Hs.
  rewrite SelectorCV_for_cons, Hseq, Hseed.
  unfold fold_score, fold_fit in *. cbn [fst snd] in *.
  destruct (combine_sequences train (sequences self0)) as [xl|e];
    [|discriminate].
  unfold fit_result.
  destruct (fit_converges L n (random_state self0) (fst xl) (snd xl));
    [|discriminate].
  destruct (combine_sequences test (sequences self0)) as [txl|e];
    [|discriminate].
  cbn zeta. simpl obj_score. rewrite Hscore.
  eexists _, xl. split; reflexivity.
Qed.

Lemma SelectorCV_for_three_data (self0 self : ModelSelector) (n : Z)
  (f1 f2 f3 : list nat * list nat) (s1 s2 s3 : Q) :
  same_setup self0 self ->
  fold_score L self0 n f1 = Some s1 ->
  fold_score L self0 n f2 = Some s2 ->
  fold_score L self0 n f3 = Some s3 ->
  exists self' res xl,
    SelectorCV_for L [f1; f2; f3] n 0%Q PyNone self = (self', Return res)
    /\ same_setup self0 self'
    /\ combine_sequences (fst f3) (sequences self0) = Return xl
    /\ X self' = fst xl /\ lengths self' = snd xl.
Proof.
  intros Hs H1 H2 H3.
  destruct (SelectorCV_for_step_data self0 self n f1 [f2; f3] 0%Q PyNone s1
                                     Hs H1) as (m1 & xl1 & _ & ->).
  pose proof (same_setup_step _ _ xl1 Hs) as Hs1.
  destruct (SelectorCV_for_step_data self0 _ n f2 [f3] (0 + s1)%Q (PyModel m1)
                                     s2 Hs1 H2) as (m2 & xl2 & _ & ->).
  pose proof (same_setup_step _ _ xl2 Hs1) as Hs2.
  destruct (SelectorCV_for_step_data self0 _ n f3 [] (0 + s1 + s2)%Q
                                     (PyModel m2) s3 Hs2 H3)
    as (m3 & xl3 & Hxl & ->).
  pose proof (same_setup_step _ _ xl3 Hs2) as Hs3.
  eexists _, _, xl3. split; [reflexivity|]. split; [exact Hs3|].
  split; [exact Hxl|]. split; reflexivity.
Qed.

Lemma SelectorCV_while_last_partition (self0 : ModelSelector)
  (f1 f2 f3 : list nat * list nat) (xl : list frame * list nat) :
  KFold_split 3 (List.length (sequences self0)) = Return [f1; f2; f3] ->
  combine_sequences (fst f3) (sequences self0) = Return xl ->
  (forall n fold, in_range self0 n -> In fold [f1; f2; f3] ->
                  fold_score L self0 n fold <> None) ->
  forall (fuel : nat) (n : Z) (ml : list (pyobj * Q)) (self : ModelSelector),
    same_setup self0 self ->
    min_n_components self0 <= n ->
    (X self = fst xl /\ lengths self = snd xl)
    \/ (fuel <> 0%nat /\ n <= max_n_components self0) ->
    X (fst (SelectorCV_while L 3 fuel n ml self)) = fst xl
    /\ lengths (fst (SelectorCV_while L 3 fuel n ml self)) = snd xl.
Proof.
  intros Hk Hxl Hall. induction fuel as [|fuel IH];
    intros n ml self Hs Hmin Hstart.
  - destruct Hstart as [H|[H _]]; [exact H | congruence].
  - rewrite SelectorCV_while_S.
    assert (Emin : min_n_components self = min_n_components self0) by apply Hs.
    assert (Emax : max_n_components self = max_n_components self0) by apply Hs.
    assert (Eseq : sequences self = sequences self0) by apply Hs.
    rewrite Emin, Emax, Eseq, Hk.
    destruct ((min_n_components self0 <=? n) && (n <=? max_n_components self0))
      eqn:Hc.
    + apply andb_true_iff in Hc. destruct Hc as [H1 H2].
      apply Z.leb_le in H1. apply Z.leb_le in H2.
      assert (Hr : in_range self0 n) by (unfold in_range; lia).
      destruct (option_not_None _ (Hall n f1 Hr (or_introl eq_refl)))
        as (s1 & Hs1).
      destruct (option_not_None _ (Hall n f2 Hr (or_intror (or_introl eq_refl))))
        as (s2 & Hs2).
      destruct (option_not_None _
                  (Hall n f3 Hr (or_intror (or_intror (or_introl eq_refl)))))
        as (s3 & Hs3).
      destruct (SelectorCV_for_three_data self0 self n f1 f2 f3 s1 s2 s3
                  Hs Hs1 Hs2 Hs3)
        as (self1 & res & xl' & -> & Hsetup1 & Hxl' & HX & Hlens).
      rewrite Hxl in Hxl'. injection Hxl' as <-.
      apply IH; [exact Hsetup1 | lia | now left].
    + destruct Hstart as [H|[_ Hmax]]; [exact H|].
      apply andb_false_iff in Hc.
      destruct Hc as [Hc|Hc]; apply Z.leb_gt in Hc; lia.
Qed.

Lemma same_setup_with_data (s s' : ModelSelector) (xl : list frame * list nat) :
  same_setup s s' -> X s' = fst xl -> lengths s' = snd xl ->
  s' = with_X_lengths s xl.
Proof.
  unfold same_setup, with_X_lengths. destruct s, s'. simpl.
  intros H HX Hl. decompose [and] H. subst. reflexivity.
Qed.

(** X12: for every word with at least three training sequences and a
    non-empty candidate range, when every fold of every candidate fits and
    scores, [SelectorCV.select] leaves the selector with the concatenated
    form of the training partition of the last fold: the word's sequences
    but the last third (rounded down) of them. *)
Theorem SelectorCV_select_leaves_last_partition (self : ModelSelector) :
  (3 <= List.length (sequences self))%nat ->
  min_n_components self <= max_n_components self ->
  (forall n fold, in_range self n -> In fold (cv_folds self) ->
                  fold_score L self n fold <> None) ->
  fst (SelectorCV_select L self)
  = with_X_lengths self
      (concat_form (firstn (List.length (sequences self)
                            - List.length (sequences self) / 3)
                           (sequences self))).
Proof.
  intros Hlen Hrange Hall.
  destruct (KFold_split 3 (List.length (sequences self))) as [folds|e] eqn:Hk.
  2:{ rewrite (KFold_split_3_explicit _ Hlen) in Hk. discriminate. }
  destruct (KFold_split_3 _ _ Hk) as (_ & f1 & f2 & f3 & ->).
  assert (Hfolds : cv_folds self = [f1; f2; f3])
    by (unfold cv_folds; now rewrite Hk).
  rewrite Hfolds in Hall.
  pose proof (combine_sequences_last_fold (sequences self) f1 f2 f3 Hk) as Hxl.
  assert (Hfst : fst (SelectorCV_select L self)
                 = fst (SelectorCV_while L 3 (range_size self)
                                         (min_n_components self) [] self)).
  { rewrite SelectorCV_select_eq.
    destruct (SelectorCV_while L 3 (range_size self) (min_n_components self) []
                               self) as [s1 [ml|e]]; reflexivity. }
  rewrite Hfst.
  destruct (SelectorCV_while_last_partition self f1 f2 f3 _ Hk Hxl Hall
              (range_size self) (min_n_components self) [] self
              (same_setup_refl self) (Z.le_refl _)) as [HX Hl].
  { right. split; [unfold range_size; lia | exact Hrange]. }
  destruct (SelectorCV_while_inv L (range_size self) (min_n_components self) []
                                 self) as (s1 & r & Hw & Hs & _).
  rewrite Hw in *. cbn [fst] in *.
  now apply same_setup_with_data.
Qed.

End CrossValidationMore.

Lemma SelectorCV_select_holds_partition_witness :
  holds_partition (up_selector 3 2 3)
                  (fst (SelectorCV_select lib_ok (up_selector 3 2 3)))
  /\ (List.length (lengths (fst (SelectorCV_select lib_ok (up_selector 3 2 3))))
      < List.length (sequences (up_selector 3 2 3)))%nat
  /\ ~ consistent (fst (SelectorCV_select lib_ok (up_selector 3 2 3))).
Proof.
  apply (SelectorCV_select_holds_partition lib_ok (up_selector 3 2 3)).
  - simpl. lia.
  - simpl. lia.
Defined.

Lemma SelectorCV_select_fold_failure_witness :
  exists self',
    SelectorCV_select lib_no3 (up_selector 5 2 3)
    = (self', Return (fit_result lib_no3 5 14 (X self') (lengths self')))
    /\ holds_partition (up_selector 5 2 3) self'
    /\ recorded_candidates lib_no3 CrossValidated (up_selector 5 2 3) = [].
Proof.
  apply (SelectorCV_select_fold_failure lib_no3 (up_selector 5 2 3) 3
           ([1%nat; 2%nat], [0%nat])).
  - unfold in_range. simpl. lia.
  - left. reflexivity.
  - reflexivity.
Defined.

Lemma SelectorCV_select_leaves_last_partition_witness :
  fst (SelectorCV_select lib_ok (up_selector 3 2 3))
  = with_X_lengths (up_selector 3 2 3)
      (concat_form (firstn (3 - 3 / 3) (sequences (up_selector 3 2 3)))).
Proof.
  apply (SelectorCV_select_leaves_last_partition lib_ok (up_selector 3 2 3)).
  - simpl. lia.
  - simpl. lia.
  - intros n fold _ HI. vm_compute in HI.
    destruct HI as [<-|[<-|[<-|[]]]]; vm_compute; discriminate.
Defined.
